(** * compilescss: the offline SASS/SCSS compilation command

    A shallow embedding of
    [sass_processor/management/commands/compilescss.py] and the properties
    of its [Command] class: template discovery, the node walker, the
    compile and delete executors and the driver [handle]. *)

From Stdlib Require Import Ascii String.
From stdpp Require Import gmap strings list fin_maps pretty.

Open Scope string_scope.
Open Scope Z_scope.

(** ** Python strings

    Python [str] values are [string]; indices are Python integers ([Z]),
    with [-1] for "not found" as [str.rfind] returns it. *)
Module PyStr.

Fixpoint take (n : nat) (s : string) : string :=
  match n, s with
  | S n', String a s' => String a (take n' s')
  | _, _ => ""
  end.

Fixpoint drop (n : nat) (s : string) : string :=
  match n, s with
  | S n', String _ s' => drop n' s'
  | _, _ => s
  end.

(** [s[:i]] and [s[i:]] for an index [0 <= i]. *)
Definition slice_to (i : Z) (s : string) : string := take (Z.to_nat i) s.
Definition slice_from (i : Z) (s : string) : string := drop (Z.to_nat i) s.

(** [s[i:i+1]]: the one-character string at [i], empty out of range. *)
Definition at_ (i : Z) (s : string) : string :=
  if i <? 0 then "" else take 1 (drop (Z.to_nat i) s).

(** [s.rfind(c)] for a one-character [c], scanning left to right and
    keeping the last hit. *)
Fixpoint rfind_from (c : ascii) (s : string) (i acc : Z) : Z :=
  match s with
  | "" => acc
  | String a s' => rfind_from c s' (i + 1) (if Ascii.eqb a c then i else acc)
  end.

Definition rfind (c : ascii) (s : string) : Z := rfind_from c s 0 (-1).

Definition startswith (s pre : string) : bool := String.prefix pre s.

(** [s.endswith(suf)]: the last [len(suf)] characters of [s] are [suf]. *)
Definition endswith (s suf : string) : bool :=
  (String.length suf <=? String.length s)%nat
  && String.eqb (drop (String.length s - String.length suf) s) suf.

(** Iterating a [str] yields its characters as one-character strings. *)
Fixpoint chars (s : string) : list string :=
  match s with
  | "" => []
  | String a s' => String a "" :: chars s'
  end.

(** The newline character as a string. *)
Definition nl : string := String (ascii_of_nat 10) "".

(** Truthiness of a string: only the empty string is falsy. *)
Definition truthy (s : string) : bool :=
  match s with "" => false | _ => true end.

Fixpoint mem (c : ascii) (s : string) : bool :=
  match s with
  | "" => false
  | String a s' => Ascii.eqb a c || mem c s'
  end.

End PyStr.

(** ** The [os.path] and [fnmatch] functions the command calls (POSIX) *)
Module OsPath.
Import PyStr.

(** The [while] loop of [genericpath._splitext], which skips the leading
    dots of the last component: [n] counts the iterations left,
    [dotIndex - filenameIndex]. *)
Fixpoint splitext_loop (n : nat) (p : string) (filenameIndex dotIndex : Z)
  : string * string :=
  match n with
  | O => (p, "")
  | S n' =>
      if negb (String.eqb (at_ filenameIndex p) ".")
      then (slice_to dotIndex p, slice_from dotIndex p)
      else splitext_loop n' p (filenameIndex + 1) dotIndex
  end.

(** [os.path.splitext(p)]. *)
Definition splitext (p : string) : string * string :=
  let sepIndex := rfind "/" p in
  let dotIndex := rfind "." p in
  if sepIndex <? dotIndex
  then splitext_loop (Z.to_nat (dotIndex - (sepIndex + 1))) p (sepIndex + 1) dotIndex
  else (p, "").

(** [os.path.join(a, b)]. *)
Definition join (a b : string) : string :=
  if startswith b "/" then b
  else if negb (truthy a) || endswith a "/" then a +:+ b
  else a +:+ "/" +:+ b.

(** [fnmatch.fnmatch(name, pat)] on POSIX, where [normcase] is the
    identity, for patterns made of [*], [?] and literal characters.  The
    patterns [find_templates] builds are ["*h"], ["*t"], ["*m"] and
    ["*l"]; bracket expressions do not occur in them. *)
Fixpoint fnmatch_pat (pat : string) : string -> bool :=
  match pat with
  | "" => fun name => negb (truthy name)
  | String c pat' =>
      if Ascii.eqb c "*" then
        fix star (name : string) : bool :=
          fnmatch_pat pat' name
          || match name with "" => false | String _ name' => star name' end
      else if Ascii.eqb c "?" then
        fun name => match name with "" => false | String _ name' => fnmatch_pat pat' name' end
      else
        fun name =>
          match name with
          | "" => false
          | String a name' => Ascii.eqb a c && fnmatch_pat pat' name'
          end
  end.

Definition fnmatch (name pat : string) : bool := fnmatch_pat pat name.

End OsPath.

(** ** Exceptions and results *)

Inductive exn_class :=
  | IOError | OSError
  | TemplateSyntaxError | TemplateDoesNotExist
  | UnicodeDecodeError
  | UnboundLocalError | RuntimeError
  | ImportError | AttributeError | TypeError
  | ImproperlyConfigured
  | CompileError
  | OtherException
  | KeyboardInterrupt.

(** An exception object: its class and [str(e)]. *)
Record exn := Exn { exn_cls : exn_class; exn_str : string }.

(** [isinstance(e, Exception)]: of the classes above only
    [KeyboardInterrupt] derives from [BaseException] directly. *)
Definition is_Exception (e : exn) : bool :=
  match exn_cls e with KeyboardInterrupt => false | _ => true end.

Inductive result (A : Type) :=
  | Ok (a : A)
  | Raise (e : exn).
Arguments Ok {A} a.
Arguments Raise {A} e.

(** ** Template nodes *)

(** The attributes of a [SassSrcNode] the command reads. *)
Record SassSrcNode := mkSassSrcNode {
  path : string;
  include_paths : list string;
  is_sass : bool;
}.

(** A node of a parsed template: a [SassSrcNode], or any other framework
    object (a template, a block, an extends node, ...), opaque here. *)
Inductive node (tnode : Type) :=
  | SassSrc (n : SassSrcNode)
  | Other (t : tnode).
Arguments SassSrc {tnode} n.
Arguments Other {tnode} t.

(** A template loader: what calling its [get_template_sources('')] gives,
    through its module or through the loader itself. *)
Record loader := Loader { get_template_sources : result (list string) }.

(** A loader as an engine lists it: a loader of its own, or one with a
    [loaders] attribute (the cached loader) that wraps others. *)
Inductive source_loader :=
  | Simple (l : loader)
  | Wrapping (loaders : list loader).

(** How the statement [with open(p, 'w') as fh: fh.write(...)] fails:
    [open] raises and the file is untouched, or [open] has created or
    truncated the file and the write then raises, leaving [written]
    in it. *)
Inductive write_failure :=
  | OpenFails (e : exn)
  | WriteFails (e : exn) (written : string).

(** ** The environment of a run

    The settings, the template engines, the directory listing, the
    template parser, the file resolver and the SASS compiler are external
    to the command. *)
Record world (tnode : Type) := World {
  (* django.conf.settings *)
  TEMPLATE_LOADERS : list string;
  SASS_TEMPLATE_EXTS : option (list string);
  SASS_OUTPUT_STYLE : option string;
  (* the template loaders of each engine in django.template.engines *)
  engines : list (list source_loader);
  (* os.walk(path): the (root, dirs, files) triples *)
  os_walk : string -> list (string * list string * list string);
  (* compressor.offline.django.DjangoParser *)
  parser_parse : string -> result tnode;
  parser_get_nodelist : tnode -> tnode -> result (list (node tnode));
  (* sass_processor.storage.find_file: None when nothing is found *)
  find_file : string -> option string;
  (* sass.compile(include_paths, filename, output_style) *)
  sass_compile : list string -> string -> string -> result string;
  (* how writing the file at path through open(path, 'w') fails, if it does *)
  open_error : string -> option write_failure;
  (* the error os.remove(path) raises on an existing file, if it does *)
  remove_error : string -> option exn;
  (* how many nested activations of walk_nodes the interpreter allows *)
  recursion_limit : nat;
  (* the encoding of a text file opened without one: the platform's
     preferred encoding *)
  preferred_encoding : string;
}.
Arguments TEMPLATE_LOADERS {tnode} w.
Arguments SASS_TEMPLATE_EXTS {tnode} w.
Arguments SASS_OUTPUT_STYLE {tnode} w.
Arguments engines {tnode} w.
Arguments os_walk {tnode} w.
Arguments parser_parse {tnode} w.
Arguments parser_get_nodelist {tnode} w.
Arguments find_file {tnode} w.
Arguments sass_compile {tnode} w.
Arguments open_error {tnode} w.
Arguments remove_error {tnode} w.
Arguments recursion_limit {tnode} w.
Arguments preferred_encoding {tnode} w.

(** The command line options of [handle]: both are [store_true] flags,
    off by default; [handle] keeps [int(show_errors)] and tests it for
    truth. *)
Record options := Options {
  show_errors : bool;
  delete_files : bool;
}.

(** The calls that reach outside the process, each recorded when it is
    made, whatever comes of it: [sass.compile], the statement that opens
    a file for writing and writes it (with the encoding that applies),
    and [os.remove]. *)
Inductive call :=
  | CallCompile (include_paths : list string) (filename output_style : string)
  | CallWrite (path content encoding : string)
  | CallRemove (path : string).

(** The mutable state of a run: the regular files on disk with their
    content, what was written to [self.stdout], the external calls made
    so far, and [self.compiled_files]. *)
Record state := State {
  files : gmap string string;
  stdout : list string;
  calls : list call;
  compiled_files : list string;
}.

(** ** The command monad: state passing with exceptions *)

Definition M (A : Type) : Type := state -> result A * state.

Definition ret {A} (a : A) : M A := fun s => (Ok a, s).

Definition bind {A B} (m : M A) (k : A -> M B) : M B :=
  fun s =>
    match m s with
    | (Ok a, s') => k a s'
    | (Raise e, s') => (Raise e, s')
    end.

Definition raise {A} (e : exn) : M A := fun s => (Raise e, s).

Definition lift {A} (r : result A) : M A := fun s => (r, s).

(** Reading [self.compiled_files]. *)
Definition self_compiled_files : M (list string) := fun s => (Ok (compiled_files s), s).

Declare Scope cmd_scope.
Delimit Scope cmd_scope with cmd.
Notation "x <- m ;; k" := (bind m (fun x => k))
  (at level 100, m at next level, right associativity) : cmd_scope.
Notation "m ;; k" := (bind m (fun _ => k))
  (at level 100, right associativity) : cmd_scope.
Open Scope cmd_scope.

(** [for x in l: body(x)]. *)
Fixpoint for_each {A} (l : list A) (body : A -> M unit) : M unit :=
  match l with
  | [] => ret tt
  | x :: l' => body x ;; for_each l' body
  end.

(** [if c: m]. *)
Definition when (c : bool) (m : M unit) : M unit := if c then m else ret tt.

(** [self.stdout.write(msg)]: one entry of [stdout] for each call, the
    message as it is passed (the output wrapper ends it with a newline
    when it has none). *)
Definition stdout_write (msg : string) : M unit :=
  fun s => (Ok tt, State (files s) (stdout s ++ [msg]) (calls s) (compiled_files s)).

(** [self.compiled_files = l]. *)
Definition set_compiled_files (l : list string) : M unit :=
  fun s => (Ok tt, State (files s) (stdout s) (calls s) l).

(** [self.compiled_files.append(f)]. *)
Definition compiled_files_append (f : string) : M unit :=
  fun s => (Ok tt, State (files s) (stdout s) (calls s) (compiled_files s ++ [f])).

(** [os.path.isfile(p)]. *)
Definition isfile (p : string) : M bool :=
  fun s => (Ok (bool_decide (is_Some (files s !! p))), s).

(** ** The command *)
Section Command.
Context {tnode : Type} (W : world tnode).
Import PyStr (nl).

(** [Command.__init__]: the two attributes read from the settings. *)
Definition template_exts : list string := default [".html"] (SASS_TEMPLATE_EXTS W).
Definition output_style : string := default "compact" (SASS_OUTPUT_STYLE W).

(** [Command.get_loaders]. *)
Definition get_loaders : list loader :=
  let template_source_loaders := concat (engines W) in
  flat_map (fun l => match l with
                     | Wrapping ls => ls
                     | Simple l => [l]
                     end) template_source_loaders.

(** The first loop of [find_templates]: [ImportError], [AttributeError]
    and [TypeError] are swallowed, anything else propagates. *)
Fixpoint collect_paths (ls : list loader) (paths : gset string) : result (gset string) :=
  match ls with
  | [] => Ok paths
  | l :: ls' =>
      match get_template_sources l with
      | Ok srcs => collect_paths ls' (paths ∪ list_to_set srcs)
      | Raise e =>
          match exn_cls e with
          | ImportError | AttributeError | TypeError => collect_paths ls' paths
          | _ => Raise e
          end
      end
  end.

(** The filter of the generator expression in [find_templates]:
    [not name.startswith('.') and
     any(fnmatch(name, "*%s" % glob) for glob in extensions)]. *)
Definition template_name_selected (extensions name : string) : bool :=
  negb (PyStr.startswith name ".")
  && existsb (fun glob => OsPath.fnmatch name ("*" +:+ glob)) (PyStr.chars extensions).

(** The files of one [os.walk] triple that [templates.update] adds. *)
Definition templates_of_triple (extensions : string)
    (t : string * list string * list string) : list string :=
  let '(root, _, names) := t in
  map (OsPath.join root) (filter (fun name => template_name_selected extensions name = true) names).

(** [Command.find_templates]. *)
Definition find_templates : result (gset string) :=
  let extensions := "html" in
  if bool_decide (TEMPLATE_LOADERS W = []) then
    Raise (Exn ImproperlyConfigured "You must set TEMPLATE_LOADERS in your settings.")
  else
    match collect_paths get_loaders ∅ with
    | Raise e => Raise e
    | Ok paths =>
        if bool_decide (paths = ∅) then
          Raise (Exn ImproperlyConfigured
                   "No template paths found. None of the configured template loaders provided template paths.")
        else
          let templates : gset string :=
            list_to_set
              (flat_map (fun path => flat_map (templates_of_triple extensions) (os_walk W path))
                        (elements paths)) in
          if bool_decide (templates = ∅) then
            Raise (Exn ImproperlyConfigured
                     "No templates found. Make sure your TEMPLATE_LOADERS and TEMPLATE_DIRS settings are correct.")
          else Ok templates
    end.

(** The [for] loop of [walk_nodes] over the node list the parser gave,
    with [walk] standing for the recursive call [self.walk_nodes(node,
    original)]. *)
Definition walk_nodelist (walk : tnode -> result (list SassSrcNode))
  : list (node tnode) -> result (list SassSrcNode) :=
  fix loop (nodelist : list (node tnode)) : result (list SassSrcNode) :=
    match nodelist with
    | [] => Ok []
    | SassSrc sn :: rest =>
        match loop rest with
        | Raise e => Raise e
        | Ok ys => Ok (if is_sass sn then sn :: ys else ys)
        end
    | Other t :: rest =>
        match walk t with
        | Raise e => Raise e
        | Ok xs =>
            match loop rest with
            | Raise e => Raise e
            | Ok ys => Ok (xs ++ ys)%list
            end
        end
    end.

(** [Command.walk_nodes], consumed to the end as [list(...)] does: the
    nodes yielded, or the exception that ends the iteration.  [depth] is
    the number of nested activations still allowed; the interpreter
    raises [RuntimeError] beyond it. *)
Fixpoint walk_nodes (depth : nat) (n original : tnode) : result (list SassSrcNode) :=
  match depth with
  | O => Raise (Exn RuntimeError "maximum recursion depth exceeded")
  | S depth' =>
      match parser_get_nodelist W n original with
      | Raise e => Raise e
      | Ok nodelist => walk_nodelist (fun t => walk_nodes depth' t original) nodelist
      end
  end.

(** [basename + '.css'] where [basename, _ = os.path.splitext(sass_filename)]. *)
Definition destpath_of (sass_filename : string) : string :=
  let '(basename, _) := OsPath.splitext sass_filename in
  basename +:+ ".css".

(** [sass.compile(include_paths=..., filename=..., output_style=...)]. *)
Definition call_sass_compile (ips : list string) (filename style : string) : M string :=
  fun s =>
    (sass_compile W ips filename style,
     State (files s) (stdout s) (calls s ++ [CallCompile ips filename style]) (compiled_files s)).

(** [with open(p, 'w') as fh: fh.write(content)].  No encoding is
    passed to [open], so the platform's applies.  When [open] raises the
    file is as it was; once [open] has returned the file exists and is
    empty, and a write that raises leaves in it what it had written. *)
Definition open_write (p content : string) : M unit :=
  fun s =>
    let called := (calls s ++ [CallWrite p content (preferred_encoding W)])%list in
    match open_error W p with
    | Some (OpenFails e) =>
        (Raise e, State (files s) (stdout s) called (compiled_files s))
    | Some (WriteFails e written) =>
        (Raise e, State (<[p := written]> (files s)) (stdout s) called (compiled_files s))
    | None =>
        (Ok tt, State (<[p := content]> (files s)) (stdout s) called (compiled_files s))
    end.

(** [os.remove(p)] on an existing file. *)
Definition os_remove (p : string) : M unit :=
  fun s =>
    let called := (calls s ++ [CallRemove p])%list in
    match remove_error W p with
    | Some e => (Raise e, State (files s) (stdout s) called (compiled_files s))
    | None => (Ok tt, State (delete p (files s)) (stdout s) called (compiled_files s))
    end.

(** [Command.compile]. *)
Definition compile (node : SassSrcNode) : M unit :=
  match find_file W (path node) with
  | None => ret tt
  | Some sass_filename =>
      compiled <- self_compiled_files ;;
      if negb (PyStr.truthy sass_filename)
         || bool_decide (sass_filename ∈ compiled)
      then ret tt
      else
        content <- call_sass_compile (include_paths node) sass_filename output_style ;;
        open_write (destpath_of sass_filename) content ;;
        compiled_files_append sass_filename ;;
        stdout_write ("Compiled SASS/SCSS file: '" +:+ path node +:+ "'" +:+ nl)
  end.

(** [Command.delete_file]. *)
Definition delete_file (node : SassSrcNode) : M unit :=
  match find_file W (path node) with
  | None => ret tt
  | Some sass_filename =>
      if negb (PyStr.truthy sass_filename) then ret tt
      else
        let destpath := destpath_of sass_filename in
        b <- isfile destpath ;;
        when b (os_remove destpath ;;
                compiled_files_append sass_filename ;;
                stdout_write ("Deleted '" +:+ destpath +:+ "'" +:+ nl))
  end.

(** The second [try] statement of [parse_template] and its [else]
    branch; [template] is [None] while the local variable is unbound. *)
Definition walk_and_process (opts : options) (template_name : string)
    (template : option tnode) : M unit :=
  let walked :=
    match template with
    | None => Raise (Exn UnboundLocalError
                       "local variable 'template' referenced before assignment")
    | Some t => walk_nodes (recursion_limit W) t t
    end in
  match walked with
  | Raise e =>
      if is_Exception e then
        when (show_errors opts)
          (stdout_write ("Error parsing template " +:+ template_name +:+ ": " +:+ exn_str e +:+ nl))
      else raise e
  | Ok nodes =>
      for_each nodes (fun node =>
        if delete_files opts then delete_file node else compile node)
  end.

(** [Command.parse_template]. *)
Definition parse_template (opts : options) (template_name : string) : M unit :=
  match parser_parse W template_name with
  | Ok template => walk_and_process opts template_name (Some template)
  | Raise e =>
      match exn_cls e with
      | IOError =>
          when (show_errors opts)
            (stdout_write ("Unreadable template at: " +:+ template_name +:+ nl))
      | TemplateSyntaxError =>
          when (show_errors opts)
            (stdout_write ("Invalid template " +:+ template_name +:+ ": " +:+ exn_str e +:+ nl))
      | TemplateDoesNotExist =>
          when (show_errors opts)
            (stdout_write ("Non-existent template at: " +:+ template_name +:+ nl))
      | UnicodeDecodeError =>
          when (show_errors opts)
            (stdout_write ("UnicodeDecodeError while trying to read template " +:+ template_name +:+ nl)) ;;
          walk_and_process opts template_name None
      | _ => raise e
      end
  end.

(** The summary line of [handle]. *)
Definition summary (opts : options) (n : nat) : string :=
  if delete_files opts
  then "Successfully deleted " +:+ pretty n +:+ " previously generated `*.css` files."
  else "Successfully compiled " +:+ pretty n +:+ " referred SASS/SCSS files.".

(** [Command.handle]. *)
Definition handle (opts : options) : M unit :=
  set_compiled_files [] ;;
  templates <- lift find_templates ;;
  for_each (elements templates) (parse_template opts) ;;
  compiled <- self_compiled_files ;;
  stdout_write (summary opts (List.length compiled)).

End Command.

(** ** Notions the properties are stated with *)
Section Notions.
Context {tnode : Type} (W : world tnode).

(** The state a process starts a run in: the files on disk, nothing
    written, nothing called, nothing compiled. *)
Definition initial (fs : gmap string string) : state := State fs [] [] [].



(** [m] keeps the property [I] of the state, whatever it returns. *)
Definition preserves {A} (I : state -> Prop) (m : M A) : Prop :=
  forall s, I s -> I (m s).2.




(** [c] occurs in the tree below [t]: it is in the node list the parser
    gives for [t], or occurs below a node of that list that is not a
    [SassSrcNode]. *)
Inductive occurs (original : tnode) : tnode -> node tnode -> Prop :=
  | occurs_child t nodelist c :
      parser_get_nodelist W t original = Ok nodelist ->
      c ∈ nodelist ->
      occurs original t c
  | occurs_nested t nodelist t' c :
      parser_get_nodelist W t original = Ok nodelist ->
      Other t' ∈ nodelist ->
      occurs original t' c ->
      occurs original t c.

(** The tree below [t] is at most [d] levels deep and the parser expands
    each of its nodes without an error. *)
Inductive expands (original : tnode) : nat -> tnode -> Prop :=
  | expands_node d t nodelist :
      parser_get_nodelist W t original = Ok nodelist ->
      (forall t', Other t' ∈ nodelist -> expands original d t') ->
      expands original (S d) t.

(** A call that creates or writes a file, or runs the compiler. *)
Definition is_compile_or_write (c : call) : bool :=
  match c with CallCompile _ _ _ | CallWrite _ _ _ => true | CallRemove _ => false end.

(** A call that removes a file. *)
Definition is_remove (c : call) : bool :=
  match c with CallRemove _ => true | _ => false end.

(** From [s0] to [s] only calls of the kind [P] were made. *)
Definition only_calls (P : call -> bool) (s0 s : state) : Prop :=
  exists extra, calls s = (calls s0 ++ extra)%list /\ forall c, c ∈ extra -> P c = true.

(** The template names of the specification: the name ends in one of the
    allowed extensions and does not start with a dot. *)
Definition is_template_name (exts : list string) (name : string) : bool :=
  negb (PyStr.startswith name ".") && existsb (PyStr.endswith name) exts.

(** The parse failures [parse_template] names. *)
Definition parse_failure_kind (c : exn_class) : bool :=
  match c with
  | IOError | TemplateSyntaxError | TemplateDoesNotExist | UnicodeDecodeError => true
  | _ => false
  end.

(** What [parse_template] does with each node the walk yields, in the
    mode [opts] selects. *)
Definition process (opts : options) (n : SassSrcNode) : M unit :=
  if delete_files opts then delete_file W n else compile W n.

(** [n] is a reference of the site: the walk of a template that
    [find_templates] returns and the parser parses yields it. *)
Definition referenced (n : SassSrcNode) : Prop :=
  exists templates name t l,
    find_templates W = Ok templates
    /\ name ∈ templates
    /\ parser_parse W name = Ok t
    /\ walk_nodes W (recursion_limit W) t t = Ok l
    /\ n ∈ l.

(** [f] is a source of the site: a reference resolves to it. *)
Definition referenced_source (f : string) : Prop :=
  exists n, referenced n /\ find_file W (path n) = Some f /\ f <> "".

(** Two states that differ in what was written to [stdout] at most. *)
Definition same_but_stdout (s s' : state) : Prop :=
  files s = files s' /\ calls s = calls s' /\ compiled_files s = compiled_files s'.

(** A loader that [get_loaders] returns gives the search path [p]: the
    loader is one an engine lists, or one that a loader an engine lists
    wraps, and [p] is among its template sources. *)
Definition offers_path (p : string) : Prop :=
  exists engine sl l srcs,
    engine ∈ engines W
    /\ sl ∈ engine
    /\ (sl = Simple l \/ exists ls, sl = Wrapping ls /\ l ∈ ls)
    /\ get_template_sources l = Ok srcs
    /\ p ∈ srcs.

(** The exception classes the first loop of [find_templates] swallows. *)
Definition swallowed (c : exn_class) : bool :=
  match c with ImportError | AttributeError | TypeError => true | _ => false end.

(** Two commands that, from states that differ in [stdout] at most,
    return the same and leave states that differ in [stdout] at most. *)
Definition agree {A} (m1 m2 : M A) : Prop :=
  forall s1 s2, same_but_stdout s1 s2 ->
    (m1 s1).1 = (m2 s2).1 /\ same_but_stdout (m1 s1).2 (m2 s2).2.

(** [parse_template] recovers from what parsing and walking the
    template [name] raise: the parser raises one of the four kinds it
    names, or the walk raises an [Exception], or nothing is raised. *)
Definition recoverable (name : string) : Prop :=
  match parser_parse W name with
  | Ok t =>
      forall e, walk_nodes W (recursion_limit W) t t = Raise e -> is_Exception e = true
  | Raise e => parse_failure_kind (exn_cls e) = true
  end.

(** A call that writes a file. *)
Definition is_write (c : call) : bool :=
  match c with CallWrite _ _ _ => true | _ => false end.

(** Every file write among [cs] is made with the encoding [enc]. *)
Definition writes_in (enc : string) (cs : list call) : Prop :=
  forall p content e, CallWrite p content e ∈ cs -> e = enc.

End Notions.

(** ** The extension of a path

    A path has an extension when its last component, what follows the
    last slash, has a dot that something other than dots precedes in
    that component; the extension then runs from the last dot of the
    component to the end.  So [.cshrc] and [..] have none. *)
Module PathSpec.
Import PyStr.

Fixpoint all_dots (s : string) : bool :=
  match s with
  | "" => true
  | String c s' => Ascii.eqb c "." && all_dots s'
  end.

Fixpoint last_component (p : string) : string :=
  match p with
  | "" => ""
  | String c p' => if mem "/" (String c p') then last_component p' else String c p'
  end.

(** [p] is [root] followed by the extension [ext] of [p]. *)
Definition splits_extension (p root ext : string) : Prop :=
  p = root +:+ ext
  /\ mem "/" ext = false
  /\ match ext with
     | "" =>
         forall pre e, last_component p = pre +:+ String "." e -> mem "." e = false ->
                       all_dots pre = true
     | String c e =>
         c = "."%char /\ mem "." e = false /\ all_dots (last_component root) = false
     end.

End PathSpec.

(** ** A small site to run the command on *)
Module Site.

Definition main : SassSrcNode := mkSassSrcNode "styles/main.scss" ["/inc"] true.
Definition theme : SassSrcNode := mkSassSrcNode "styles/theme.scss" ["/inc"] true.
Definition logo : SassSrcNode := mkSassSrcNode "img/logo.css" [] false.
Definition missing : SassSrcNode := mkSassSrcNode "styles/missing.scss" [] true.

Definition walk (p : string) : list (string * list string * list string) :=
  if String.eqb p "/t"
  then [("/t", ["sub"], ["page.html"; "notes.txt"; ".hidden.html"; "mail.jinja"]);
        ("/t/sub", [], ["base.html"; "main.css"])]
  else [].

(** Templates are numbered; [0] stands for every other framework node. *)
Definition parse (name : string) : result nat :=
  if String.eqb name "/t/page.html" then Ok 1%nat
  else if String.eqb name "/t/sub/base.html" then Ok 2%nat
  else if String.eqb name "/t/notes.txt" then Raise (Exn TemplateSyntaxError "Invalid block tag")
  else Raise (Exn TemplateDoesNotExist name).

Definition nodelist (n original : nat) : result (list (node nat)) :=
  match n with
  | 1%nat => Ok [SassSrc main; Other 10%nat; SassSrc logo]
  | 10%nat => Ok [SassSrc theme; SassSrc missing]
  | 2%nat => Ok [Other 0%nat; SassSrc main]
  | _ => Ok []
  end.

Definition resolve (p : string) : option string :=
  if String.eqb p "styles/main.scss" then Some "/static/styles/main.scss"
  else if String.eqb p "styles/theme.scss" then Some "/static/styles/theme.scss"
  else if String.eqb p "styles/broken.scss" then Some "/static/styles/broken.scss"
  else None.

Definition sassc (ips : list string) (filename style : string) : result string :=
  if String.eqb filename "/static/styles/broken.scss"
  then Raise (Exn CompileError "Error: invalid css")
  else Ok ("/* " +:+ style +:+ " */ css of " +:+ filename).

Definition site_with (parse : string -> result nat)
    (nodelist : nat -> nat -> result (list (node nat))) : world nat :=
  World nat ["django.template.loaders.filesystem.Loader"] None None
        [[Simple (Loader (Ok ["/t"]))]] walk parse nodelist resolve sassc
        (fun _ => None) (fun _ => None) 100 "UTF-8".

Definition site : world nat := site_with parse nodelist.



(** The same site where [notes.txt] cannot be decoded. *)
Definition parse_undecodable (name : string) : result nat :=
  if String.eqb name "/t/notes.txt"
  then Raise (Exn UnicodeDecodeError "'utf8' codec can't decode byte 0xff in position 0")
  else parse name.

Definition site_undecodable : world nat := site_with parse_undecodable nodelist.



(** The same site with [SASS_TEMPLATE_EXTS = ['.jinja']]. *)
Definition site_jinja : world nat :=
  World nat ["django.template.loaders.filesystem.Loader"] (Some [".jinja"]) None
        [[Simple (Loader (Ok ["/t"]))]] walk parse nodelist resolve sassc
        (fun _ => None) (fun _ => None) 100 "UTF-8".





(** The same site without [TEMPLATE_LOADERS]. *)
Definition site_unconfigured : world nat :=
  World nat [] None None
        [[Simple (Loader (Ok ["/t"]))]] walk parse nodelist resolve sassc
        (fun _ => None) (fun _ => None) 100 "UTF-8".

(** The same site where [page.html] includes a template that does not
    exist. *)
Definition nodelist_missing_include (n original : nat) : result (list (node nat)) :=
  match n with
  | 10%nat => Raise (Exn TemplateDoesNotExist "partials/head.html")
  | _ => nodelist n original
  end.

Definition site_missing_include : world nat := site_with parse nodelist_missing_include.

(** The same site on a platform whose preferred encoding is Latin-1. *)
Definition site_latin1 : world nat :=
  World nat ["django.template.loaders.filesystem.Loader"] None None
        [[Simple (Loader (Ok ["/t"]))]] walk parse nodelist resolve sassc
        (fun _ => None) (fun _ => None) 100 "ISO-8859-1".

(** The same site on a full disk: [main.css] is opened, which empties
    it, and the write fails. *)
Definition full_disk (p : string) : option write_failure :=
  if String.eqb p "/static/styles/main.css"
  then Some (WriteFails (Exn IOError "[Errno 28] No space left on device") "")
  else None.

Definition site_full_disk : world nat :=
  World nat ["django.template.loaders.filesystem.Loader"] None None
        [[Simple (Loader (Ok ["/t"]))]] walk parse nodelist resolve sassc
        full_disk (fun _ => None) 100 "UTF-8".

(** The same site where [main.css] cannot be removed. *)
Definition locked (p : string) : option exn :=
  if String.eqb p "/static/styles/main.css"
  then Some (Exn OSError "[Errno 13] Permission denied")
  else None.

Definition site_locked : world nat :=
  World nat ["django.template.loaders.filesystem.Loader"] None None
        [[Simple (Loader (Ok ["/t"]))]] walk parse nodelist resolve sassc
        (fun _ => None) locked 100 "UTF-8".

Definition quiet : options := Options false false.
Definition verbose : options := Options true false.
Definition delete_quiet : options := Options false true.

Definition disk : gmap string string :=
  {[ "/static/styles/main.scss" := "body { margin: 0 }";
     "/static/styles/theme.scss" := "a { color: red }" ]}.

(** The templates the command finds on each of these sites. *)
Definition templates : gset string :=
  list_to_set ["/t/page.html"; "/t/notes.txt"; "/t/sub/base.html"].

(** The disk after [main.scss] was compiled. *)
Definition disk_compiled : gmap string string :=
  <[ "/static/styles/main.css" := "/* compact */ css of /static/styles/main.scss" ]> disk.

End Site.

(** * Properties *)

(** ** Strings and paths *)
Section PathFacts.
Import PyStr OsPath.

Lemma take_drop_id (n : nat) (s : string) : take n s +:+ drop n s = s.
Proof.
  revert s; induction n as [|n IH]; intros [|a s]; try reflexivity.
  change (String a (take n s +:+ drop n s) = String a s). now rewrite IH.
Qed.

Lemma append_empty (s : string) : s = s +:+ "".
Proof.
  induction s as [|a s IH]; [reflexivity|].
  change (String a s = String a (s +:+ "")). now rewrite <- IH.
Qed.

Lemma drop_add (a b : nat) (s : string) : drop (a + b) s = drop b (drop a s).
Proof.
  revert s; induction a as [|a IH]; intros s; simpl; [reflexivity|].
  destruct s as [|x s]; simpl; [now destruct b | apply IH].
Qed.

Lemma mem_drop (c : ascii) (n : nat) (s : string) :
  mem c s = false -> mem c (drop n s) = false.
Proof.
  revert s; induction n as [|n IH]; intros [|a s]; simpl; auto.
  intros H. apply orb_false_iff in H as [_ H]. now apply IH.
Qed.

(** [rfind] either finds nothing, or returns the position of the last
    occurrence. *)
Lemma rfind_from_spec (c : ascii) (s : string) (i acc : Z) :
  (rfind_from c s i acc = acc /\ mem c s = false)
  \/ (i <= rfind_from c s i acc < i + Z.of_nat (String.length s)
      /\ exists rest,
           drop (Z.to_nat (rfind_from c s i acc - i)) s = String c rest
           /\ mem c rest = false).
Proof.
  revert i acc; induction s as [|a s IH]; intros i acc; simpl.
  - now left.
  - destruct (IH (i + 1) (if Ascii.eqb a c then i else acc))
      as [[Hr Hm]|[Hr (rest & Hd & Hm)]].
    + rewrite Hr. destruct (Ascii.eqb a c) eqn:E.
      * right. split; [lia|]. exists s.
        apply Ascii.eqb_eq in E as ->. now rewrite Z.sub_diag.
      * left. now rewrite Hm.
    + right. split; [lia|]. exists rest. split; [|exact Hm].
      replace (Z.to_nat (rfind_from c s (i + 1) (if Ascii.eqb a c then i else acc) - i))
        with (S (Z.to_nat (rfind_from c s (i + 1) (if Ascii.eqb a c then i else acc) - (i + 1))))
        by lia.
      exact Hd.
Qed.

Lemma rfind_spec (c : ascii) (s : string) :
  (rfind c s = -1 /\ mem c s = false)
  \/ (0 <= rfind c s
      /\ exists rest, drop (Z.to_nat (rfind c s)) s = String c rest /\ mem c rest = false).
Proof.
  unfold rfind. destruct (rfind_from_spec c s 0 (-1)) as [H|[Hr (rest & Hd & Hm)]].
  - now left.
  - right. split; [lia|]. exists rest. now rewrite Z.sub_0_r in Hd.
Qed.

(** Nothing after a position beyond the last occurrence of [c] is [c]. *)
Lemma mem_after_rfind (c : ascii) (s : string) (d : Z) :
  rfind c s < d -> mem c (drop (Z.to_nat d) s) = false.
Proof.
  intros Hlt. destruct (rfind_spec c s) as [[_ Hm]|[Hr (rest & Hd & Hm)]].
  - now apply mem_drop.
  - replace (Z.to_nat d)
      with (Z.to_nat (rfind c s) + S (Z.to_nat (d - rfind c s - 1)))%nat by lia.
    rewrite drop_add, Hd. simpl. now apply mem_drop.
Qed.

Lemma splitext_loop_cases (n : nat) (p : string) (filenameIndex dotIndex : Z) :
  splitext_loop n p filenameIndex dotIndex = (p, "")
  \/ splitext_loop n p filenameIndex dotIndex = (slice_to dotIndex p, slice_from dotIndex p).
Proof.
  revert filenameIndex; induction n as [|n IH]; intros fi; simpl.
  - now left.
  - destruct (negb _); [now right | apply IH].
Qed.

(** [splitext] cuts [p] in two; the extension is empty, or it is a dot
    followed by characters that are neither dots nor slashes. *)
Lemma splitext_spec (p root ext : string) :
  splitext p = (root, ext) ->
  p = root +:+ ext
  /\ (ext = ""
      \/ exists e, ext = String "." e /\ mem "." e = false /\ mem "/" e = false).
Proof.
  unfold splitext. destruct (rfind "/" p <? rfind "." p) eqn:E.
  - apply Z.ltb_lt in E.
    destruct (splitext_loop_cases (Z.to_nat (rfind "." p - (rfind "/" p + 1))) p
                (rfind "/" p + 1) (rfind "." p)) as [-> | ->]; intros [= <- <-].
    + split; [apply append_empty | now left].
    + unfold slice_to, slice_from. split; [now rewrite take_drop_id|].
      right. destruct (rfind_spec "." p) as [[Hr _]|[_ (rest & Hd & Hm)]].
      * destruct (rfind_spec "/" p) as [[? _]|[? _]]; lia.
      * exists rest. split; [exact Hd|]. split; [exact Hm|].
        pose proof (mem_after_rfind "/" p (rfind "." p) E) as Hs.
        rewrite Hd in Hs. simpl in Hs. exact Hs.
  - intros [= <- <-]. split; [apply append_empty | now left].
Qed.

(** The artifact path: the source path with its extension replaced by
    [.css]. *)
Lemma destpath_of_spec (f : string) :
  exists root ext,
    f = root +:+ ext
    /\ destpath_of f = root +:+ ".css"
    /\ (ext = ""
        \/ exists e, ext = String "." e /\ mem "." e = false /\ mem "/" e = false).
Proof.
  unfold destpath_of. destruct (splitext f) as [root ext] eqn:E.
  exists root, ext. destruct (splitext_spec _ _ _ E) as [H1 H2]. auto.
Qed.

End PathFacts.

(** ** The extension [splitext] finds *)
Section ExtensionFacts.
Import PyStr OsPath PathSpec.

Lemma mem_app (c : ascii) (a b : string) : mem c (a +:+ b) = mem c a || mem c b.
Proof.
  induction a as [|x a IH]; [reflexivity|].
  change (mem c (String x (a +:+ b)) = mem c (String x a) || mem c b).
  simpl. rewrite IH. apply orb_assoc.
Qed.

Lemma mem_take (c : ascii) (n : nat) (s : string) :
  mem c s = false -> mem c (take n s) = false.
Proof.
  revert s; induction n as [|n IH]; intros [|a s]; simpl; auto.
  intros H. apply orb_false_iff in H as [-> H]. now apply IH.
Qed.

Lemma take_add (a b : nat) (s : string) :
  take (a + b) s = take a s +:+ take b (drop a s).
Proof.
  revert s; induction a as [|a IH]; intros s; simpl.
  - now destruct b, s.
  - destruct s as [|x s]; [now destruct b|].
    change (String x (take (a + b) s) = String x (take a s +:+ take b (drop a s))).
    now rewrite IH.
Qed.

Lemma last_component_no_slash (s : string) : mem "/" s = false -> last_component s = s.
Proof. destruct s as [|c s]; [reflexivity|]. intros H. simpl in *. now rewrite H. Qed.

Lemma last_component_after_slash (a b : string) :
  mem "/" b = false -> last_component (a +:+ String "/" b) = b.
Proof.
  intros Hb. induction a as [|c a IH].
  - change (last_component (String "/" b) = b). simpl.
    now apply last_component_no_slash.
  - change (last_component (String c (a +:+ String "/" b)) = b).
    assert (mem "/" (String c (a +:+ String "/" b)) = true) as Hm.
    { simpl. rewrite mem_app. simpl. now rewrite !orb_true_r. }
    simpl in *. now rewrite Hm.
Qed.

(** The last component starts after the last slash. *)
Lemma last_component_rfind (p : string) :
  last_component p = drop (Z.to_nat (rfind "/" p + 1)) p
  /\ mem "/" (last_component p) = false
  /\ forall q, mem "/" q = false ->
       last_component (take (Z.to_nat (rfind "/" p + 1)) p +:+ q) = q.
Proof.
  destruct (rfind_spec "/" p) as [[-> Hm]|[Hr (rest & Hd & Hm)]].
  - simpl. rewrite (last_component_no_slash _ Hm). split; [reflexivity|].
    split; [exact Hm|]. intros q. apply last_component_no_slash.
  - assert (p = take (Z.to_nat (rfind "/" p)) p +:+ String "/" rest) as Hp.
    { rewrite <- Hd. symmetry. apply take_drop_id. }
    assert (drop (Z.to_nat (rfind "/" p + 1)) p = rest) as Hd1.
    { replace (Z.to_nat (rfind "/" p + 1)) with (Z.to_nat (rfind "/" p) + 1)%nat by lia.
      now rewrite drop_add, Hd. }
    assert (take (Z.to_nat (rfind "/" p + 1)) p = take (Z.to_nat (rfind "/" p)) p +:+ "/")
      as Ht1.
    { replace (Z.to_nat (rfind "/" p + 1)) with (Z.to_nat (rfind "/" p) + 1)%nat by lia.
      now rewrite take_add, Hd. }
    assert (last_component p = rest) as Hl.
    { rewrite Hp. now apply last_component_after_slash. }
    rewrite Hl, Hd1. split; [reflexivity|]. split; [exact Hm|].
    intros q Hq. rewrite Ht1.
    {
      replace ((take (Z.to_nat (rfind "/" p)) p +:+ "/") +:+ q)
        with (take (Z.to_nat (rfind "/" p)) p +:+ String "/" q).
      * now apply last_component_after_slash.
      * generalize (take (Z.to_nat (rfind "/" p)) p). intros a.
        induction a as [|x a IH]; [reflexivity|].
        change (String x (a +:+ String "/" q) = String x ((a +:+ "/") +:+ q)).
        now rewrite IH. }
Qed.

(** The loop of [splitext] looks for a character that is no dot. *)
Lemma splitext_loop_all_dots (n : nat) (p : string) (filenameIndex dotIndex : Z) :
  0 <= filenameIndex ->
  drop n (drop (Z.to_nat filenameIndex) p) <> "" ->
  splitext_loop n p filenameIndex dotIndex
  = if all_dots (take n (drop (Z.to_nat filenameIndex) p))
    then (p, "")
    else (slice_to dotIndex p, slice_from dotIndex p).
Proof.
  revert filenameIndex; induction n as [|n IH]; intros fi Hfi Hne; [reflexivity|].
  simpl splitext_loop. unfold at_. destruct (fi <? 0) eqn:E; [apply Z.ltb_lt in E; lia|].
  destruct (drop (Z.to_nat fi) p) as [|c q] eqn:Hq; [now destruct n|].
  assert (drop (Z.to_nat (fi + 1)) p = q) as Hq1.
  { replace (Z.to_nat (fi + 1)) with (Z.to_nat fi + 1)%nat by lia.
    now rewrite drop_add, Hq. }
  change (take 1 (String c q)) with (String c "").
  change (take (S n) (String c q)) with (String c (take n q)).
  change (all_dots (String c (take n q))) with (Ascii.eqb c "." && all_dots (take n q)).
  change (String.eqb (String c "") ".") with (Ascii.eqb c "." && true).
  rewrite andb_true_r. destruct (Ascii.eqb c "."); [|reflexivity]. simpl.
  rewrite IH; [now rewrite Hq1 | lia | now rewrite Hq1].
Qed.

(** A string is cut at its last dot in one way only. *)
Lemma cut_at_last_dot (pre pre' e e' : string) :
  pre +:+ String "." e = pre' +:+ String "." e' ->
  mem "." e = false -> mem "." e' = false -> pre = pre'.
Proof.
  intros H He He'. revert pre' H. induction pre as [|c pre IH]; intros [|c' pre'].
  - reflexivity.
  - change (String "." e = String c' (pre' +:+ String "." e') -> "" = String c' pre').
    intros [= _ ->]. rewrite mem_app in He. simpl in He. now rewrite orb_true_r in He.
  - change (String c (pre +:+ String "." e) = String "." e' -> String c pre = "").
    intros [= _ <-]. rewrite mem_app in He'. simpl in He'. now rewrite orb_true_r in He'.
  - change (String c (pre +:+ String "." e) = String c' (pre' +:+ String "." e')
            -> String c pre = String c' pre').
    intros [= -> H]. now rewrite (IH pre' H).
Qed.

(** [splitext] cuts a path into its root and its extension. *)
Lemma splitext_splits (p : string) :
  splits_extension p (splitext p).1 (splitext p).2.
Proof.
  destruct (last_component_rfind p) as (Hlast & Hnoslash & Hroot).
  unfold splitext. destruct (rfind "/" p <? rfind "." p) eqn:E.
  - apply Z.ltb_lt in E.
    destruct (rfind_spec "." p) as [[Hr _]|[Hdot (e & Hd & He)]].
    { destruct (rfind_spec "/" p) as [[? _]|[? _]]; lia. }
    assert (0 <= rfind "/" p + 1) as Hsep
      by (destruct (rfind_spec "/" p) as [[? _]|[? _]]; lia).
    set (k := Z.to_nat (rfind "." p - (rfind "/" p + 1))).
    assert (Z.to_nat (rfind "." p) = (Z.to_nat (rfind "/" p + 1) + k)%nat) as Hk
      by (unfold k; lia).
    assert (drop k (last_component p) = String "." e) as Hdk
      by (now rewrite Hlast, <- drop_add, <- Hk).
    assert (last_component p = take k (last_component p) +:+ String "." e) as Hcut
      by (rewrite <- Hdk; symmetry; apply take_drop_id).
    rewrite splitext_loop_all_dots; [|exact Hsep|].
    2:{ fold k. rewrite <- Hlast, Hdk. discriminate. }
    fold k. rewrite <- Hlast.
    destruct (all_dots (take k (last_component p))) eqn:Hall; simpl.
    + split; [apply append_empty|]. split; [reflexivity|].
      intros pre e' Hp He'. rewrite Hcut in Hp.
      now rewrite <- (cut_at_last_dot _ _ _ _ Hp He He').
    + unfold slice_to, slice_from. split; [now rewrite take_drop_id|].
      rewrite Hd. split.
      { pose proof (mem_after_rfind "/" p (rfind "." p) E) as Hs.
        rewrite Hd in Hs. exact Hs. }
      split; [reflexivity|]. split; [exact He|].
      rewrite Hk, take_add, <- Hlast, Hroot; [exact Hall|].
      now apply mem_take.
  - simpl. split; [apply append_empty|]. split; [reflexivity|].
    intros pre e Hp He. apply Z.ltb_ge in E.
    assert (mem "." (last_component p) = false) as Hnodot.
    { rewrite Hlast. apply mem_after_rfind. lia. }
    rewrite Hp, mem_app in Hnodot. simpl in Hnodot. now rewrite orb_true_r in Hnodot.
Qed.

Lemma append_inj_l (r a b : string) : r +:+ a = r +:+ b -> a = b.
Proof.
  induction r as [|c r IH]; [auto|].
  change (String c (r +:+ a) = String c (r +:+ b) -> a = b).
  intros [= H]. auto.
Qed.

Lemma last_component_app (a b : string) :
  mem "/" b = false -> last_component (a +:+ b) = last_component a +:+ b.
Proof.
  intros Hb. induction a as [|c a IH].
  - now apply last_component_no_slash.
  - change (last_component (String c (a +:+ b)) = last_component (String c a) +:+ b).
    simpl. rewrite mem_app, Hb, orb_false_r.
    destruct (Ascii.eqb c "/" || mem "/" a); [exact IH | reflexivity].
Qed.

(** A path has one root and one extension. *)
Lemma splits_extension_unique (p root ext root' ext' : string) :
  splits_extension p root ext -> splits_extension p root' ext' ->
  root = root' /\ ext = ext'.
Proof.
  intros (Hp & Hs & He) (Hp' & Hs' & He').
  assert (forall r' y,
            p = r' +:+ String "." y -> mem "/" (String "." y) = false ->
            (forall pre e, last_component p = pre +:+ String "." e -> mem "." e = false ->
                           all_dots pre = true) ->
            mem "." y = false -> all_dots (last_component r') = false -> False) as Hmix.
  { intros r' y Hq Hsl Hnone Hy Hr'.
    rewrite (Hnone (last_component r') y) in Hr'; [discriminate| |exact Hy].
    rewrite Hq. now apply last_component_app. }
  destruct ext as [|c e], ext' as [|c' e'].
  - split; [|reflexivity]. rewrite <- (append_empty root) in Hp.
    rewrite <- (append_empty root') in Hp'. congruence.
  - destruct He' as (-> & Hy & Hr'). exfalso. now apply (Hmix root' e').
  - destruct He as (-> & Hy & Hr). exfalso. now apply (Hmix root e).
  - destruct He as (-> & Hy & Hr), He' as (-> & Hy' & Hr').
    assert (root = root') as <-.
    { apply (cut_at_last_dot root root' e e'); [congruence | exact Hy | exact Hy']. }
    split; [reflexivity|]. rewrite Hp in Hp'. now apply append_inj_l in Hp'.
Qed.

(** The artifact path is the source path with its extension replaced by
    [.css]. *)
Lemma destpath_of_replaces_extension (f : string) :
  exists root ext, splits_extension f root ext /\ destpath_of f = root +:+ ".css".
Proof.
  exists (splitext f).1, (splitext f).2. split; [apply splitext_splits|].
  unfold destpath_of. now destruct (splitext f).
Qed.

Example sass_has_an_extension : ~ splits_extension "a/theme.sass" "a/theme.sass" "".
Proof.
  intros (_ & _ & H). specialize (H "theme" "sass" eq_refl eq_refl). discriminate.
Qed.

Example destpath_of_sass : destpath_of "/static/styles/theme.sass" = "/static/styles/theme.css".
Proof. reflexivity. Qed.

Example destpath_of_two_dots : destpath_of "a.b/site.min.scss" = "a.b/site.min.css".
Proof. reflexivity. Qed.

Example destpath_of_no_extension : destpath_of "a.b/.hidden" = "a.b/.hidden.css".
Proof. reflexivity. Qed.

End ExtensionFacts.

(** ** The executor: [compile] and [delete_file] *)
Section Executor.
Context {tnode : Type} (W : world tnode).
Import PyStr.

Lemma truthy_nonempty (f : string) : f <> "" -> truthy f = true.
Proof. now destruct f. Qed.

Lemma compile_unresolved (n : SassSrcNode) (s : state) :
  find_file W (path n) = None -> compile W n s = (Ok tt, s).
Proof. intros H. unfold compile. now rewrite H. Qed.

Lemma compile_already (n : SassSrcNode) (s : state) (f : string) :
  find_file W (path n) = Some f -> f ∈ compiled_files s -> compile W n s = (Ok tt, s).
Proof.
  intros H Hin. unfold compile, bind, self_compiled_files. rewrite H.
  rewrite (bool_decide_eq_true_2 _ Hin), orb_true_r. reflexivity.
Qed.

Lemma compile_fresh (n : SassSrcNode) (s : state) (f content : string) :
  find_file W (path n) = Some f -> f <> "" -> f ∉ compiled_files s ->
  sass_compile W (include_paths n) f (output_style W) = Ok content ->
  open_error W (destpath_of f) = None ->
  compile W n s =
    (Ok tt,
     State (<[destpath_of f := content]> (files s))
           (stdout s ++ ["Compiled SASS/SCSS file: '" +:+ path n +:+ "'" +:+ nl])
           (calls s ++ [CallCompile (include_paths n) f (output_style W);
                        CallWrite (destpath_of f) content (preferred_encoding W)])
           (compiled_files s ++ [f])).
Proof.
  intros H Hne Hnin Hc Ho. unfold compile, bind, self_compiled_files. rewrite H.
  rewrite (truthy_nonempty _ Hne), (bool_decide_eq_false_2 _ Hnin). simpl.
  unfold call_sass_compile, open_write. rewrite Hc. simpl. rewrite Ho. simpl.
  now rewrite <- app_assoc.
Qed.

Lemma delete_unresolved (n : SassSrcNode) (s : state) :
  find_file W (path n) = None -> delete_file W n s = (Ok tt, s).
Proof. intros H. unfold delete_file. now rewrite H. Qed.

Lemma delete_absent (n : SassSrcNode) (s : state) (f : string) :
  find_file W (path n) = Some f -> files s !! destpath_of f = None ->
  delete_file W n s = (Ok tt, s).
Proof.
  intros H Hf. unfold delete_file, bind, isfile. rewrite H.
  destruct (truthy f); [|reflexivity]. simpl.
  rewrite bool_decide_eq_false_2; [reflexivity|].
  rewrite Hf. now intros [? ?].
Qed.

Lemma delete_present (n : SassSrcNode) (s : state) (f : string) :
  find_file W (path n) = Some f -> f <> "" -> is_Some (files s !! destpath_of f) ->
  remove_error W (destpath_of f) = None ->
  delete_file W n s =
    (Ok tt,
     State (delete (destpath_of f) (files s))
           (stdout s ++ ["Deleted '" +:+ destpath_of f +:+ "'" +:+ nl])
           (calls s ++ [CallRemove (destpath_of f)])
           (compiled_files s ++ [f])).
Proof.
  intros H Hne Hf Hr. unfold delete_file, bind, isfile. rewrite H.
  rewrite (truthy_nonempty _ Hne). simpl.
  rewrite (bool_decide_eq_true_2 _ Hf). simpl.
  unfold os_remove. rewrite Hr. reflexivity.
Qed.

(** What one call of [delete_file] adds to the external calls: nothing,
    or one removal. *)
Lemma delete_file_calls (n : SassSrcNode) (s : state) :
  calls (delete_file W n s).2 = calls s
  \/ exists p, calls (delete_file W n s).2 = (calls s ++ [CallRemove p])%list.
Proof.
  unfold delete_file, bind, isfile, when.
  destruct (find_file W (path n)) as [f|]; [|now left].
  destruct (truthy f); [|now left]. simpl.
  destruct (bool_decide _); [|now left].
  unfold os_remove. simpl.
  destruct (remove_error W (destpath_of f)); right; now exists (destpath_of f).
Qed.

End Executor.

(** ** The walker *)
Section Walker.
Context {tnode : Type} (W : world tnode).

(** What the loop over one node list yields, when it runs to its end. *)
Lemma walk_nodelist_ok (walk : tnode -> result (list SassSrcNode))
    (nodelist : list (node tnode)) (l : list SassSrcNode) :
  walk_nodelist walk nodelist = Ok l ->
  (forall t, Other t ∈ nodelist -> exists xs, walk t = Ok xs)
  /\ (forall sn, sn ∈ l <->
        (SassSrc sn ∈ nodelist /\ is_sass sn = true)
        \/ (exists t xs, Other t ∈ nodelist /\ walk t = Ok xs /\ sn ∈ xs)).
Proof.
  revert l; induction nodelist as [|c rest IH]; intros l; simpl.
  - intros [= <-]. split.
    + intros t Ht. inversion Ht.
    + intros sn. split.
      * intros Hin. inversion Hin.
      * intros [[Hin _]|(t & xs & Hin & _)]; inversion Hin.
  - destruct c as [sn0|t0].
    + destruct (walk_nodelist walk rest) as [ys|e] eqn:E; [|discriminate].
      intros [= <-]. destruct (IH ys eq_refl) as [IH1 IH2]. split.
      * intros t Ht. apply elem_of_cons in Ht as [Ht|Ht]; [discriminate | auto].
      * intros sn. rewrite elem_of_cons.
        assert (sn ∈ (if is_sass sn0 then sn0 :: ys else ys)
                <-> (sn = sn0 /\ is_sass sn0 = true) \/ sn ∈ ys) as ->.
        { destruct (is_sass sn0) eqn:Es; rewrite ?elem_of_cons; intuition congruence. }
        rewrite IH2. split.
        -- intros [[-> Hs]|[[Hin Hs]|(t & xs & Hin & Hw & Hx)]].
           ++ left. auto.
           ++ left. auto.
           ++ right. exists t, xs. rewrite elem_of_cons. auto.
        -- intros [[[Heq|Hin] Hs]|(t & xs & Hin & Hw & Hx)].
           ++ injection Heq as ->. auto.
           ++ right. left. auto.
           ++ apply elem_of_cons in Hin as [Hin|Hin]; [discriminate|].
              right. right. exists t, xs. auto.
    + destruct (walk t0) as [xs0|e] eqn:E0; [|discriminate].
      destruct (walk_nodelist walk rest) as [ys|e] eqn:E; [|discriminate].
      intros [= <-]. destruct (IH ys eq_refl) as [IH1 IH2]. split.
      * intros t Ht. apply elem_of_cons in Ht as [Ht|Ht]; [|auto].
        injection Ht as ->. eauto.
      * intros sn. rewrite elem_of_app, IH2. split.
        -- intros [Hx|[[Hin Hs]|(t & xs & Hin & Hw & Hx)]].
           ++ right. exists t0, xs0. rewrite elem_of_cons. auto.
           ++ left. rewrite elem_of_cons. auto.
           ++ right. exists t, xs. rewrite elem_of_cons. auto.
        -- intros [[Hin Hs]|(t & xs & Hin & Hw & Hx)].
           ++ apply elem_of_cons in Hin as [Hin|Hin]; [discriminate|].
              right. left. auto.
           ++ apply elem_of_cons in Hin as [Hin|Hin].
              ** injection Hin as ->. left. congruence.
              ** right. right. exists t, xs. auto.
Qed.

(** The loop runs to its end when every recursive call does. *)
Lemma walk_nodelist_total (walk : tnode -> result (list SassSrcNode))
    (nodelist : list (node tnode)) :
  (forall t, Other t ∈ nodelist -> exists xs, walk t = Ok xs) ->
  exists l, walk_nodelist walk nodelist = Ok l.
Proof.
  induction nodelist as [|c rest IH]; intros H; simpl; [eauto|].
  destruct IH as [ys ->].
  { intros t Ht. apply H. rewrite elem_of_cons. auto. }
  destruct c as [sn0|t0]; [eauto|].
  destruct (H t0) as [xs ->]; [rewrite elem_of_cons; auto | eauto].
Qed.

Lemma walk_nodes_total (original : tnode) (d : nat) (t : tnode) :
  expands W original d t -> exists l, walk_nodes W d t original = Ok l.
Proof.
  induction 1 as [d t nodelist Hn _ IH]. simpl. rewrite Hn.
  now apply walk_nodelist_total.
Qed.

Lemma walk_nodes_sound_complete (original : tnode) (d : nat) :
  forall (t : tnode) (l : list SassSrcNode),
    walk_nodes W d t original = Ok l ->
    forall sn, sn ∈ l <-> (occurs W original t (SassSrc sn) /\ is_sass sn = true).
Proof.
  induction d as [|d IH]; intros t l; simpl; [discriminate|].
  destruct (parser_get_nodelist W t original) as [nodelist|e] eqn:Hn; [|discriminate].
  intros Hw sn. destruct (walk_nodelist_ok _ _ _ Hw) as [Hall Hiff].
  rewrite Hiff. split.
  - intros [[Hin Hs]|(t' & xs & Hin & Hw' & Hx)].
    + split; [|exact Hs]. eapply occurs_child; eauto.
    + apply (IH _ _ Hw') in Hx as [Ho Hs]. split; [|exact Hs].
      eapply occurs_nested; eauto.
  - intros [Ho Hs]. inversion Ho as [t1 nl c Hn' Hin|t1 nl t' c Hn' Hin Ho']; subst.
    + left. split; [|exact Hs]. congruence.
    + right. assert (nl = nodelist) as -> by congruence.
      destruct (Hall t' Hin) as [xs Hxs]. exists t', xs.
      split; [exact Hin|]. split; [exact Hxs|]. apply (IH _ _ Hxs). auto.
Qed.

(** C9. On every parsed template tree that the parser expands without an
    error within the depth the interpreter allows, [walk_nodes] runs to
    its end; and whenever it does, the nodes it yields are exactly the
    [SassSrcNode]s with [is_sass] set that occur in the tree, nodes of
    nested node lists included. *)
Theorem walk_nodes_yields_exactly_sass_nodes (original : tnode) (d : nat) (t : tnode) :
  (expands W original d t -> exists l, walk_nodes W d t original = Ok l)
  /\ (forall l, walk_nodes W d t original = Ok l ->
      forall sn, sn ∈ l <-> (occurs W original t (SassSrc sn) /\ is_sass sn = true)).
Proof.
  split.
  - apply walk_nodes_total.
  - intros l Hl. exact (walk_nodes_sound_complete original d t l Hl).
Qed.

End Walker.

(** ** Reasoning about commands *)
Section Commands.
Context {tnode : Type} (W : world tnode).

Lemma preserves_ret {A} (I : state -> Prop) (a : A) : preserves I (ret a).
Proof. intros s H. exact H. Qed.

Lemma preserves_raise {A} (I : state -> Prop) (e : exn) : preserves I (@raise A e).
Proof. intros s H. exact H. Qed.

Lemma preserves_lift {A} (I : state -> Prop) (r : result A) : preserves I (lift r).
Proof. intros s H. exact H. Qed.

Lemma preserves_bind {A B} (I : state -> Prop) (m : M A) (k : A -> M B) :
  preserves I m -> (forall a, preserves I (k a)) -> preserves I (bind m k).
Proof.
  intros Hm Hk s Hs. unfold bind. specialize (Hm s Hs).
  destruct (m s) as [[a|e] s']; simpl in *; [now apply Hk | exact Hm].
Qed.

Lemma preserves_when (I : state -> Prop) (c : bool) (m : M unit) :
  preserves I m -> preserves I (when c m).
Proof. intros Hm. destruct c; [exact Hm | apply preserves_ret]. Qed.

Lemma preserves_for_each {A} (I : state -> Prop) (l : list A) (body : A -> M unit) :
  (forall x, preserves I (body x)) -> preserves I (for_each l body).
Proof.
  intros Hb. induction l as [|x l IH]; simpl.
  - apply preserves_ret.
  - apply preserves_bind; auto.
Qed.

Lemma preserves_self_compiled_files (I : state -> Prop) : preserves I self_compiled_files.
Proof. intros s H. exact H. Qed.

(** A property kept by the messages written and by the operation of the
    selected mode is kept by [parse_template]. *)
Lemma preserves_parse_template (I : state -> Prop) (opts : options) (name : string) :
  (forall msg, preserves I (stdout_write msg)) ->
  (forall n, preserves I (if delete_files opts then delete_file W n else compile W n)) ->
  preserves I (parse_template W opts name).
Proof.
  intros Hout Hstep.
  assert (forall template, preserves I (walk_and_process W opts name template)) as Hwp.
  { intros template. unfold walk_and_process.
    destruct (match template with Some t => _ | None => _ end) as [nodes|e].
    - now apply preserves_for_each.
    - destruct (is_Exception e); [|apply preserves_raise].
      apply preserves_when, Hout. }
  unfold parse_template. destruct (parser_parse W name) as [t|e]; [apply Hwp|].
  destruct (exn_cls e); try apply preserves_raise; try (apply preserves_when, Hout).
  apply preserves_bind; [apply preserves_when, Hout | auto].
Qed.

(** ... and holds after [handle] when it holds once [compiled_files] is
    reset. *)
Lemma handle_establishes (I : state -> Prop) (opts : options) (s0 : state) :
  (forall msg, preserves I (stdout_write msg)) ->
  (forall n, preserves I (if delete_files opts then delete_file W n else compile W n)) ->
  I (State (files s0) (stdout s0) (calls s0) []) ->
  I (handle W opts s0).2.
Proof.
  intros Hout Hstep H0. unfold handle.
  change (bind (set_compiled_files []) ?k s0)
    with (k tt (State (files s0) (stdout s0) (calls s0) [])).
  revert H0. generalize (State (files s0) (stdout s0) (calls s0) []).
  apply preserves_bind; [apply preserves_lift|]. intros templates.
  apply preserves_bind.
  - apply preserves_for_each. intros name. now apply preserves_parse_template.
  - intros _. apply preserves_bind; [apply preserves_self_compiled_files|].
    intros compiled. apply Hout.
Qed.

(** When [handle] returns normally, the last line written is the summary
    with the length of [compiled_files]. *)
Lemma handle_ok_summary (opts : options) (s0 s' : state) :
  handle W opts s0 = (Ok tt, s') ->
  last (stdout s') = Some (summary opts (List.length (compiled_files s'))).
Proof.
  unfold handle, bind, set_compiled_files, lift, self_compiled_files, stdout_write.
  destruct (find_templates W) as [templates|e]; [|discriminate].
  destruct (for_each _ _ _) as [[[]|e] s1]; [|discriminate].
  intros [= <-]. simpl. apply last_snoc.
Qed.

End Commands.

(** ** [compiled_files] holds each source once *)
Section Distinct.
Context {tnode : Type} (W : world tnode).

Lemma NoDup_snoc_fresh (l : list string) (f : string) :
  NoDup l -> f ∉ l -> NoDup (l ++ [f]).
Proof.
  intros Hl Hf. apply NoDup_app. split; [exact Hl|]. split.
  - intros x Hx Hx'. apply list_elem_of_singleton in Hx' as ->. contradiction.
  - apply NoDup_singleton.
Qed.

(** Compile mode: the membership test before the append. *)
Lemma compile_keeps_distinct (n : SassSrcNode) :
  preserves (fun s => NoDup (compiled_files s)) (compile W n).
Proof.
  intros s Hs. unfold compile.
  destruct (find_file W (path n)) as [f|]; [|exact Hs].
  unfold bind, self_compiled_files.
  destruct (negb (PyStr.truthy f)); [exact Hs|]. simpl.
  destruct (bool_decide (f ∈ compiled_files s)) eqn:E; [exact Hs|].
  apply bool_decide_eq_false in E.
  unfold call_sass_compile, open_write.
  destruct (sass_compile W _ _ _) as [content|e]; [|exact Hs]. simpl.
  destruct (open_error W (destpath_of f)) as [[?|? ?]|]; [exact Hs|exact Hs|]. simpl.
  now apply NoDup_snoc_fresh.
Qed.

(** Delete mode: a source is recorded only when its artifact is on disk,
    and the artifact of every recorded source is gone. *)
Lemma delete_keeps_distinct (n : SassSrcNode) :
  preserves (fun s => NoDup (compiled_files s)
                      /\ forall f, f ∈ compiled_files s -> files s !! destpath_of f = None)
            (delete_file W n).
Proof.
  intros s [Hs Hgone]. unfold delete_file.
  destruct (find_file W (path n)) as [f|]; [|now split].
  destruct (negb (PyStr.truthy f)); [now split|].
  unfold bind, isfile, when.
  destruct (bool_decide (is_Some (files s !! destpath_of f))) eqn:E; [|now split].
  apply bool_decide_eq_true in E. unfold os_remove.
  destruct (remove_error W (destpath_of f)); [now split|]. simpl. split.
  - apply NoDup_snoc_fresh; [exact Hs|]. intros Hin.
    rewrite (Hgone f Hin) in E. now destruct E.
  - intros g Hg. apply elem_of_app in Hg as [Hg|Hg].
    + destruct (decide (destpath_of f = destpath_of g)) as [->|Hne].
      * apply lookup_delete_eq.
      * rewrite lookup_delete_ne; auto.
    + apply list_elem_of_singleton in Hg as ->. apply lookup_delete_eq.
Qed.

Lemma handle_distinct (opts : options) (s0 : state) :
  NoDup (compiled_files (handle W opts s0).2).
Proof.
  destruct (delete_files opts) eqn:Hmode.
  - refine (proj1 (handle_establishes W
              (fun s => NoDup (compiled_files s)
                        /\ forall f, f ∈ compiled_files s -> files s !! destpath_of f = None)
              opts s0 _ _ _)).
    + intros msg s H. exact H.
    + intros n. rewrite Hmode. apply delete_keeps_distinct.
    + simpl. split; [apply NoDup_nil_2|]. intros f Hf. inversion Hf.
  - apply (handle_establishes W (fun s => NoDup (compiled_files s))).
    + intros msg s H. exact H.
    + intros n. rewrite Hmode. apply compile_keeps_distinct.
    + apply NoDup_nil_2.
Qed.

(** C8. In both modes, after [handle] the list [compiled_files] holds no
    source path twice, whatever the templates and references are; so the
    count in the summary is the number of distinct source files recorded. *)
Theorem compiled_files_recorded_once (opts : options) (s0 : state) :
  NoDup (compiled_files (handle W opts s0).2)
  /\ (forall s', handle W opts s0 = (Ok tt, s') ->
      last (stdout s')
      = Some (summary opts (size (list_to_set (compiled_files s') : gset string)))).
Proof.
  split; [apply handle_distinct|].
  intros s' H. rewrite (handle_ok_summary W opts s0 s' H). do 2 f_equal.
  symmetry. apply size_list_to_set.
  pose proof (handle_distinct opts s0) as Hd. now rewrite H in Hd.
Qed.

End Distinct.

(** ** Each mode has the effects of its own operation only *)
Section Frame.
Context {tnode : Type} (W : world tnode).

Lemma only_calls_refl (P : call -> bool) (s0 s : state) :
  calls s = calls s0 -> only_calls P s0 s.
Proof.
  intros H. exists []. split; [now rewrite app_nil_r|]. intros c Hc. inversion Hc.
Qed.

Lemma only_calls_snoc (P : call -> bool) (s0 s s' : state) (cs : list call) :
  only_calls P s0 s -> calls s' = (calls s ++ cs)%list ->
  (forall c, c ∈ cs -> P c = true) -> only_calls P s0 s'.
Proof.
  intros (extra & He & Hall) Hs' Hcs. exists (extra ++ cs)%list. split.
  - now rewrite Hs', He, app_assoc.
  - intros c Hc. apply elem_of_app in Hc as [Hc|Hc]; auto.
Qed.

Lemma delete_file_frame (s0 : state) (n : SassSrcNode) :
  preserves (fun s => only_calls is_remove s0 s /\ files s ⊆ files s0) (delete_file W n).
Proof.
  intros s [Hc Hf]. unfold delete_file.
  destruct (find_file W (path n)) as [f|]; [|now split].
  destruct (negb (PyStr.truthy f)); [now split|].
  unfold bind, isfile, when.
  destruct (bool_decide (is_Some (files s !! destpath_of f))); [|now split].
  unfold os_remove.
  assert (only_calls is_remove s0
            (State (files s) (stdout s) (calls s ++ [CallRemove (destpath_of f)])
                   (compiled_files s))) as Hc1.
  { eapply only_calls_snoc; [exact Hc | reflexivity |].
    intros c Hc'. now apply list_elem_of_singleton in Hc' as ->. }
  destruct (remove_error W (destpath_of f)); [now split|].
  simpl. split; [exact Hc1|].
  etransitivity; [apply delete_subseteq | exact Hf].
Qed.

Lemma compile_frame (s0 : state) (n : SassSrcNode) :
  preserves (fun s => only_calls is_compile_or_write s0 s /\ dom (files s0) ⊆ dom (files s))
            (compile W n).
Proof.
  intros s [Hc Hf]. unfold compile.
  destruct (find_file W (path n)) as [f|]; [|now split].
  unfold bind, self_compiled_files.
  destruct (negb (PyStr.truthy f) || bool_decide (f ∈ compiled_files s)); [now split|].
  unfold call_sass_compile, open_write.
  assert (only_calls is_compile_or_write s0
            (State (files s) (stdout s)
                   (calls s ++ [CallCompile (include_paths n) f (output_style W)])
                   (compiled_files s))) as Hc1.
  { eapply only_calls_snoc; [exact Hc | reflexivity |].
    intros c Hc'. now apply list_elem_of_singleton in Hc' as ->. }
  destruct (sass_compile W _ _ _) as [content|e]; [|now split]. simpl.
  assert (only_calls is_compile_or_write s0
            (State (files s) (stdout s)
                   ((calls s ++ [CallCompile (include_paths n) f (output_style W)])
                    ++ [CallWrite (destpath_of f) content (preferred_encoding W)])
                   (compiled_files s))) as Hc2.
  { eapply only_calls_snoc; [exact Hc1 | reflexivity |].
    intros c Hc'. now apply list_elem_of_singleton in Hc' as ->. }
  destruct (open_error W (destpath_of f)) as [[?|? ?]|]; simpl.
  - now split.
  - split; [exact Hc2|]. rewrite dom_insert. set_solver.
  - split; [exact Hc2|]. rewrite dom_insert. set_solver.
Qed.

(** C10. In delete mode a run calls neither the compiler nor a file
    write, and every file on disk afterwards was there before with the
    same content; in compile mode a run removes no file, and every file
    that was on disk is still there. *)
Theorem mode_frame (opts : options) (s0 : state) :
  if delete_files opts
  then only_calls is_remove s0 (handle W opts s0).2
       /\ files (handle W opts s0).2 ⊆ files s0
  else only_calls is_compile_or_write s0 (handle W opts s0).2
       /\ dom (files s0) ⊆ dom (files (handle W opts s0).2).
Proof.
  destruct (delete_files opts) eqn:Hmode.
  - apply (handle_establishes W
             (fun s => only_calls is_remove s0 s /\ files s ⊆ files s0)).
    + intros msg s H. exact H.
    + intros n. rewrite Hmode. apply delete_file_frame.
    + split; [now apply only_calls_refl | reflexivity].
  - apply (handle_establishes W
             (fun s => only_calls is_compile_or_write s0 s /\ dom (files s0) ⊆ dom (files s))).
    + intros msg s H. exact H.
    + intros n. rewrite Hmode. apply compile_frame.
    + split; [now apply only_calls_refl | reflexivity].
Qed.

End Frame.

(** ** Compiling twice *)
Section Idempotence.
Context {tnode : Type} (W : world tnode).






















End Idempotence.

(** ** The contracts of [compile] and [delete_file] *)
Section Contracts.
Context {tnode : Type} (W : world tnode).
Import PyStr.

(** C3, amended.  [compile] resolves [node.path] first.  When nothing is
    found, or the file found is in [compiled_files] already, it does
    nothing.  Otherwise it calls the compiler with the include paths of
    the node, the file found and the configured output style (["compact"]
    unless set).  With the compiler's result it opens the artifact for
    writing, as text in the encoding of the platform since it passes
    none, and writes the result; it then appends the file found to
    [compiled_files] and writes one progress line.  When the compiler or
    [open] raises, no file is changed and nothing is recorded; when the
    write raises, the artifact is left as the failed write left it and
    nothing is recorded.  The artifact path is the path of the source
    with its extension replaced by [.css]. *)
Theorem compile_contract (n : SassSrcNode) (s : state) :
  (find_file W (path n) = None \/ find_file W (path n) = Some "" ->
   compile W n s = (Ok tt, s))
  /\ (forall f, find_file W (path n) = Some f -> f ∈ compiled_files s ->
      compile W n s = (Ok tt, s))
  /\ (forall f, find_file W (path n) = Some f -> f <> "" -> f ∉ compiled_files s ->
      let style := default "compact" (SASS_OUTPUT_STYLE W) in
      let compiler_called :=
        (calls s ++ [CallCompile (include_paths n) f style])%list in
      match sass_compile W (include_paths n) f style with
      | Raise e =>
          compile W n s
          = (Raise e, State (files s) (stdout s) compiler_called (compiled_files s))
      | Ok content =>
          let write_called :=
            (compiler_called
             ++ [CallWrite (destpath_of f) content (preferred_encoding W)])%list in
          match open_error W (destpath_of f) with
          | Some (OpenFails e) =>
              compile W n s
              = (Raise e, State (files s) (stdout s) write_called (compiled_files s))
          | Some (WriteFails e written) =>
              compile W n s
              = (Raise e, State (<[destpath_of f := written]> (files s)) (stdout s)
                                write_called (compiled_files s))
          | None =>
              compile W n s
              = (Ok tt,
                 State (<[destpath_of f := content]> (files s))
                       (stdout s ++ ["Compiled SASS/SCSS file: '" +:+ path n +:+ "'" +:+ nl])
                       write_called
                       (compiled_files s ++ [f]))
          end
      end)
  /\ (forall f, exists root ext,
        PathSpec.splits_extension f root ext /\ destpath_of f = root +:+ ".css").
Proof.
  split; [|split; [|split]].
  - intros [H|H]; [now apply compile_unresolved|].
    unfold compile. now rewrite H.
  - intros f. apply compile_already.
  - intros f Hf Hne Hnin style compiler_called.
    unfold compile, bind, self_compiled_files. rewrite Hf.
    rewrite (truthy_nonempty _ Hne), (bool_decide_eq_false_2 _ Hnin). simpl.
    unfold call_sass_compile, open_write, output_style. fold style.
    destruct (sass_compile W (include_paths n) f style) as [content|e]; [|reflexivity].
    simpl. fold compiler_called.
    destruct (open_error W (destpath_of f)) as [[e|e written]|]; reflexivity.
  - apply destpath_of_replaces_extension.
Qed.

(** C4. [delete_file] resolves [node.path]; when nothing is found it does
    nothing; when the artifact, at the path of the source with its
    extension replaced by [.css], is a file on disk, it removes it,
    appends the file found to [compiled_files] and writes one progress
    line (when [os.remove] raises, nothing is removed or recorded); when
    the artifact is no file, it does nothing.  One call makes one call of
    [os.remove] at most. *)
Theorem delete_file_contract (n : SassSrcNode) (s : state) :
  (find_file W (path n) = None \/ find_file W (path n) = Some "" ->
   delete_file W n s = (Ok tt, s))
  /\ (forall f, find_file W (path n) = Some f -> files s !! destpath_of f = None ->
      delete_file W n s = (Ok tt, s))
  /\ (forall f, find_file W (path n) = Some f -> f <> "" ->
      is_Some (files s !! destpath_of f) ->
      let remove_called := (calls s ++ [CallRemove (destpath_of f)])%list in
      match remove_error W (destpath_of f) with
      | Some e =>
          delete_file W n s
          = (Raise e, State (files s) (stdout s) remove_called (compiled_files s))
      | None =>
          delete_file W n s
          = (Ok tt,
             State (delete (destpath_of f) (files s))
                   (stdout s ++ ["Deleted '" +:+ destpath_of f +:+ "'" +:+ nl])
                   remove_called
                   (compiled_files s ++ [f]))
      end)
  /\ (calls (delete_file W n s).2 = calls s
      \/ exists p, calls (delete_file W n s).2 = (calls s ++ [CallRemove p])%list)
  /\ (forall f, exists root ext,
        PathSpec.splits_extension f root ext /\ destpath_of f = root +:+ ".css").
Proof.
  split; [|split; [|split; [|split]]].
  - intros [H|H]; [now apply delete_unresolved|].
    unfold delete_file. now rewrite H.
  - intros f. apply delete_absent.
  - intros f Hf Hne Hsome remove_called.
    unfold delete_file, bind, isfile. rewrite Hf.
    rewrite (truthy_nonempty _ Hne). simpl.
    rewrite (bool_decide_eq_true_2 _ Hsome). simpl.
    unfold os_remove. fold remove_called.
    destruct (remove_error W (destpath_of f)); reflexivity.
  - apply delete_file_calls.
  - apply destpath_of_replaces_extension.
Qed.

(** C5. For a reference whose path the resolver maps to no file, the
    operation of either mode returns normally and leaves the state as it
    was: nothing recorded, no file written or removed, no line written,
    whatever [show_errors] is. *)
Theorem unresolved_reference_is_noop (opts : options) (n : SassSrcNode) (s : state) :
  find_file W (path n) = None ->
  (if delete_files opts then delete_file W n else compile W n) s = (Ok tt, s).
Proof.
  intros H. destruct (delete_files opts).
  - now apply delete_unresolved.
  - now apply compile_unresolved.
Qed.

End Contracts.

(** ** Which errors end a run *)
Section Recovery.
Context {tnode : Type} (W : world tnode).






(** An exception that ends the loop over a node list was raised by a
    recursive call. *)
Lemma walk_nodelist_raises (walk : tnode -> result (list SassSrcNode))
    (nodelist : list (node tnode)) (e : exn) :
  walk_nodelist walk nodelist = Raise e ->
  exists t, Other t ∈ nodelist /\ walk t = Raise e.
Proof.
  induction nodelist as [|c rest IH]; simpl; [discriminate|].
  destruct c as [sn|t'].
  - destruct (walk_nodelist walk rest) as [ys|e'] eqn:E; [discriminate|].
    intros [= <-]. destruct (IH eq_refl) as (t & Hin & Ht).
    exists t. rewrite elem_of_cons. auto.
  - destruct (walk t') as [xs|e'] eqn:E'.
    + destruct (walk_nodelist walk rest) as [ys|e''] eqn:E; [discriminate|].
      intros [= <-]. destruct (IH eq_refl) as (t & Hin & Ht).
      exists t. rewrite elem_of_cons. auto.
    + intros [= <-]. exists t'. rewrite elem_of_cons. auto.
Qed.


Section NoExecutorError.
Hypothesis parse_raises :
  forall name e, parser_parse W name = Raise e -> parse_failure_kind (exn_cls e) = true.
Hypothesis walk_raises :
  forall t o e, parser_get_nodelist W t o = Raise e -> is_Exception e = true.
Hypothesis compiler_returns :
  forall ips f style, exists content, sass_compile W ips f style = Ok content.
Hypothesis open_succeeds : forall p, open_error W p = None.
Hypothesis remove_succeeds : forall p, remove_error W p = None.






End NoExecutorError.

(** What [parse_template] does with a template the parser raises on:
    for the four kinds it names, nothing but the lines written when
    [show_errors] is set, one for an unreadable, invalid or missing
    template and two for an undecodable one; any other exception
    propagates. *)
Lemma parse_template_on_parse_error (opts : options) (name : string) (e : exn) (s : state) :
  parser_parse W name = Raise e ->
  let said (lines : list string) :=
    (Ok tt : result unit,
     State (files s) (stdout s ++ (if show_errors opts then lines else []))
           (calls s) (compiled_files s)) in
  parse_template W opts name s =
    match exn_cls e with
    | IOError => said ["Unreadable template at: " +:+ name +:+ PyStr.nl]
    | TemplateSyntaxError =>
        said ["Invalid template " +:+ name +:+ ": " +:+ exn_str e +:+ PyStr.nl]
    | TemplateDoesNotExist => said ["Non-existent template at: " +:+ name +:+ PyStr.nl]
    | UnicodeDecodeError =>
        said ["UnicodeDecodeError while trying to read template " +:+ name +:+ PyStr.nl;
              "Error parsing template " +:+ name
              +:+ ": local variable 'template' referenced before assignment" +:+ PyStr.nl]
    | _ => (Raise e, s)
    end.
Proof.
  intros H. unfold parse_template. rewrite H.
  destruct s as [fs out cs done]. unfold bind, when, walk_and_process.
  destruct (exn_cls e), (show_errors opts); simpl; rewrite ?app_nil_r; try reflexivity.
  unfold stdout_write. simpl. rewrite <- app_assoc. reflexivity.
Qed.


End Recovery.

(** ** Template discovery *)
Section Discovery.
Import PyStr OsPath.

Lemma endswith_char_cons (c a : ascii) (name : string) :
  endswith (String a name) (String c "")
  = match name with
    | "" => Ascii.eqb a c
    | _ => endswith name (String c "")
    end.
Proof.
  unfold endswith. destruct name as [|b name]; simpl.
  - now destruct (Ascii.eqb a c).
  - rewrite !Nat.sub_0_r. reflexivity.
Qed.

(** For a character [c] that is no wildcard, the pattern ["*c"] matches
    the names that end in [c]. *)
Lemma fnmatch_star_char (c : ascii) (name : string) :
  Ascii.eqb c "*" = false -> Ascii.eqb c "?" = false ->
  fnmatch name ("*" +:+ String c "") = endswith name (String c "").
Proof.
  intros H1 H2. unfold fnmatch.
  change ("*" +:+ String c "") with (String "*" (String c "")).
  induction name as [|a name IH].
  - simpl. rewrite H1, H2. reflexivity.
  - rewrite endswith_char_cons.
    transitivity ((Ascii.eqb a c && negb (truthy name))
                  || fnmatch_pat (String "*" (String c "")) name).
    { simpl. rewrite H1, H2. reflexivity. }
    rewrite IH. destruct name as [|b name].
    + simpl. now rewrite andb_true_r, orb_false_r.
    + simpl. now rewrite andb_false_r.
Qed.

(** What the filter of [find_templates] selects with [extensions =
    'html']: the names that do not start with a dot and end in [h], [t],
    [m] or [l]. *)
Lemma template_name_selected_html (name : string) :
  template_name_selected "html" name
  = negb (startswith name ".")
    && (endswith name "h" || endswith name "t" || endswith name "m" || endswith name "l").
Proof.
  unfold template_name_selected. f_equal.
  change (chars "html") with ["h"; "t"; "m"; "l"]. cbn [existsb].
  rewrite !fnmatch_star_char by reflexivity. now rewrite orb_false_r, !orb_assoc.
Qed.

End Discovery.

(** ** The command on the small site *)

(** C2, on the code.  With the default extensions [['.html']],
    [find_templates] returns [/t/notes.txt], whose name does not end in
    [.html]; with [SASS_TEMPLATE_EXTS = ['.jinja']] it returns the same
    templates and leaves [/t/mail.jinja] out. *)
Theorem find_templates_ignores_template_exts :
  (template_exts Site.site = [".html"]
   /\ is_template_name (template_exts Site.site) "notes.txt" = false
   /\ find_templates Site.site = Ok Site.templates
   /\ "/t/notes.txt" ∈ Site.templates)
  /\ (template_exts Site.site_jinja = [".jinja"]
      /\ is_template_name (template_exts Site.site_jinja) "mail.jinja" = true
      /\ find_templates Site.site_jinja = Ok Site.templates
      /\ "/t/mail.jinja" ∉ Site.templates).
Proof.
  split.
  - split; [reflexivity|]. split; [reflexivity|].
    split; [vm_compute; reflexivity|].
    apply (bool_decide_unpack _). vm_compute. exact I.
  - split; [reflexivity|]. split; [reflexivity|].
    split; [vm_compute; reflexivity|].
    apply (bool_decide_unpack _). vm_compute. exact I.
Qed.

(** C6, on the code.  [/t/notes.txt] cannot be decoded; with
    [show_errors] set, [parse_template] writes two lines for it: the one
    of the decode error, and the one of the [UnboundLocalError] that
    the walk of the unbound [template] raises. *)
Theorem undecodable_template_reported_twice :
  parser_parse Site.site_undecodable "/t/notes.txt"
  = Raise (Exn UnicodeDecodeError "'utf8' codec can't decode byte 0xff in position 0")
  /\ parse_template Site.site_undecodable Site.verbose "/t/notes.txt" (initial Site.disk)
     = (Ok tt,
        State Site.disk
              ["UnicodeDecodeError while trying to read template /t/notes.txt" +:+ PyStr.nl;
               "Error parsing template /t/notes.txt: local variable 'template' referenced before assignment"
               +:+ PyStr.nl]
              [] []).
Proof. split; vm_compute; reflexivity. Qed.

(** C3 as stated fails on the encoding.  On a platform whose preferred
    encoding is Latin-1, [compile] resolves [styles/main.scss], compiles
    it and writes the artifact in Latin-1, not in UTF-8. *)
Lemma compile_writes_in_platform_encoding :
  find_file Site.site_latin1 (path Site.main) = Some "/static/styles/main.scss"
  /\ (compile Site.site_latin1 Site.main (initial Site.disk)).1 = Ok tt
  /\ CallWrite "/static/styles/main.css"
               "/* compact */ css of /static/styles/main.scss" "ISO-8859-1"
     ∈ calls (compile Site.site_latin1 Site.main (initial Site.disk)).2
  /\ ~ writes_in "UTF-8" (calls (compile Site.site_latin1 Site.main (initial Site.disk)).2).
Proof.
  assert (CallWrite "/static/styles/main.css"
                    "/* compact */ css of /static/styles/main.scss" "ISO-8859-1"
          ∈ calls (compile Site.site_latin1 Site.main (initial Site.disk)).2) as Hin.
  { change (calls (compile Site.site_latin1 Site.main (initial Site.disk)).2)
      with [CallCompile ["/inc"] "/static/styles/main.scss" "compact";
            CallWrite "/static/styles/main.css"
                      "/* compact */ css of /static/styles/main.scss" "ISO-8859-1"].
    apply elem_of_cons. right. apply elem_of_cons. now left. }
  split; [reflexivity|]. split; [reflexivity|]. split; [exact Hin|].
  intros H. specialize (H _ _ _ Hin). discriminate.
Qed.








Lemma compile_contract_witness :
  compile Site.site Site.main (initial Site.disk)
  = (Ok tt,
     State (<["/static/styles/main.css" := "/* compact */ css of /static/styles/main.scss"]>
              Site.disk)
           ["Compiled SASS/SCSS file: 'styles/main.scss'" +:+ PyStr.nl]
           [CallCompile ["/inc"] "/static/styles/main.scss" "compact";
            CallWrite "/static/styles/main.css"
                      "/* compact */ css of /static/styles/main.scss" "UTF-8"]
           ["/static/styles/main.scss"]).
Proof.
  destruct (compile_contract Site.site Site.main (initial Site.disk)) as (_ & _ & H & _).
  apply (H "/static/styles/main.scss").
  - reflexivity.
  - discriminate.
  - simpl. apply not_elem_of_nil.
Defined.

Lemma delete_file_contract_witness :
  delete_file Site.site Site.main (initial Site.disk_compiled)
  = (Ok tt,
     State (delete "/static/styles/main.css" Site.disk_compiled)
           ["Deleted '/static/styles/main.css'" +:+ PyStr.nl]
           [CallRemove "/static/styles/main.css"]
           ["/static/styles/main.scss"]).
Proof.
  destruct (delete_file_contract Site.site Site.main (initial Site.disk_compiled))
    as (_ & _ & H & _).
  apply (H "/static/styles/main.scss").
  - reflexivity.
  - discriminate.
  - exists "/* compact */ css of /static/styles/main.scss". vm_compute. reflexivity.
Defined.

Lemma unresolved_reference_is_noop_witness :
  find_file Site.site (path Site.missing) = None
  /\ compile Site.site Site.missing (initial Site.disk) = (Ok tt, initial Site.disk)
  /\ delete_file Site.site Site.missing (initial Site.disk_compiled)
     = (Ok tt, initial Site.disk_compiled).
Proof.
  split; [reflexivity|]. split.
  - apply (unresolved_reference_is_noop Site.site Site.verbose). reflexivity.
  - apply (unresolved_reference_is_noop Site.site Site.delete_quiet). reflexivity.
Defined.


Lemma compiled_files_recorded_once_witness :
  last (stdout (handle Site.site Site.quiet (initial Site.disk)).2)
  = Some (summary Site.quiet
            (size (list_to_set
                     (compiled_files (handle Site.site Site.quiet (initial Site.disk)).2)
                   : gset string))).
Proof.
  apply (proj2 (compiled_files_recorded_once Site.site Site.quiet (initial Site.disk))).
  vm_compute. reflexivity.
Defined.

Lemma walk_nodes_yields_exactly_sass_nodes_witness :
  (exists l, walk_nodes Site.site 2 1%nat 1%nat = Ok l)
  /\ (Site.theme ∈ [Site.main; Site.theme; Site.missing]
      <-> occurs Site.site 1%nat 1%nat (SassSrc Site.theme) /\ is_sass Site.theme = true).
Proof.
  split.
  - apply (proj1 (walk_nodes_yields_exactly_sass_nodes Site.site 1%nat 2 1%nat)).
    apply expands_node with (nodelist := [SassSrc Site.main; Other 10%nat; SassSrc Site.logo]);
      [reflexivity|].
    intros t' Ht'. apply elem_of_cons in Ht' as [Ht'|Ht']; [discriminate|].
    apply elem_of_cons in Ht' as [Ht'|Ht'].
    + injection Ht' as ->.
      apply expands_node with (nodelist := [SassSrc Site.theme; SassSrc Site.missing]);
        [reflexivity|].
      intros t'' Ht''. apply elem_of_cons in Ht'' as [Ht''|Ht'']; [discriminate|].
      apply elem_of_cons in Ht'' as [Ht''|Ht'']; [discriminate | inversion Ht''].
    + apply elem_of_cons in Ht' as [Ht'|Ht']; [discriminate | inversion Ht'].
  - apply (proj2 (walk_nodes_yields_exactly_sass_nodes Site.site 1%nat 2 1%nat)).
    reflexivity.
Defined.

(** ** Runs and values on the small site *)

Example compile_then_delete :
  let first := handle Site.site Site.quiet (initial Site.disk) in
  let second := handle Site.site Site.delete_quiet (initial (files first.2)) in
  let third := handle Site.site Site.delete_quiet (initial (files second.2)) in
  stdout first.2
  = ["Compiled SASS/SCSS file: 'styles/main.scss'" +:+ PyStr.nl;
     "Compiled SASS/SCSS file: 'styles/theme.scss'" +:+ PyStr.nl;
     "Successfully compiled 2 referred SASS/SCSS files."]
  /\ stdout second.2
     = ["Deleted '/static/styles/main.css'" +:+ PyStr.nl;
        "Deleted '/static/styles/theme.css'" +:+ PyStr.nl;
        "Successfully deleted 2 previously generated `*.css` files."]
  /\ files second.2 = Site.disk
  /\ stdout third.2 = ["Successfully deleted 0 previously generated `*.css` files."].
Proof. repeat split; vm_compute; reflexivity. Qed.

Example splitext_scss : OsPath.splitext "/static/css/main.scss" = ("/static/css/main", ".scss").
Proof. reflexivity. Qed.

Example splitext_dotfile : OsPath.splitext "/static/.hidden" = ("/static/.hidden", "").
Proof. reflexivity. Qed.

Example splitext_dotdir : OsPath.splitext "/sta.tic/main" = ("/sta.tic/main", "").
Proof. reflexivity. Qed.

Example splitext_two : OsPath.splitext "a/..b.c.d" = ("a/..b.c", ".d").
Proof. reflexivity. Qed.

Example join_plain : OsPath.join "/t" "a.html" = "/t/a.html".
Proof. reflexivity. Qed.

Example join_slash : OsPath.join "/t/" "a.html" = "/t/a.html".
Proof. reflexivity. Qed.

Example fnmatch_l : OsPath.fnmatch "base.html" "*l" = true.
Proof. reflexivity. Qed.

Example fnmatch_t : OsPath.fnmatch "notes.txt" "*t" = true.
Proof. reflexivity. Qed.

Example fnmatch_css : OsPath.fnmatch "main.css" "*l" = false.
Proof. reflexivity. Qed.

(** * Further properties of the command *)

(** ** The artifacts of a run *)
Section Artifacts.
Context {tnode : Type} (W : world tnode).
Import PyStr OsPath.

(** The artifact path is the source path exactly when the extension of
    the source is [.css]. *)
Lemma destpath_of_fixpoint (f : string) :
  destpath_of f = f <-> (splitext f).2 = ".css".
Proof.
  unfold destpath_of. destruct (splitext f) as [root ext] eqn:E. simpl.
  destruct (splitext_spec _ _ _ E) as [Hf _]. split.
  - intros H. rewrite Hf in H. now apply append_inj_l in H.
  - intros ->. now rewrite Hf.
Qed.

(** Neither operation changes the source it resolves a reference to,
    unless the extension of that source is [.css]. *)
Theorem process_keeps_source (opts : options) (n : SassSrcNode) (s : state) (f : string) :
  find_file W (path n) = Some f ->
  (splitext f).2 <> ".css" ->
  files (process W opts n s).2 !! f = files s !! f.
Proof.
  intros Hf Hext.
  assert (destpath_of f <> f) as Hne by (now rewrite destpath_of_fixpoint).
  unfold process. destruct (delete_files opts).
  - unfold delete_file. rewrite Hf. destruct (negb (truthy f)); [reflexivity|].
    unfold bind, isfile, when. destruct (bool_decide _); [|reflexivity].
    unfold os_remove. destruct (remove_error W (destpath_of f)); [reflexivity|].
    simpl. now apply lookup_delete_ne.
  - unfold compile. rewrite Hf. unfold bind, self_compiled_files.
    destruct (_ || _); [reflexivity|].
    unfold call_sass_compile, open_write.
    destruct (sass_compile W _ _ _); [|reflexivity]. simpl.
    destruct (open_error W (destpath_of f)) as [[?|? ?]|]; simpl;
      [reflexivity | now apply lookup_insert_ne | now apply lookup_insert_ne].
Qed.

(** Compiling a reference a second time in a row does nothing more. *)
Theorem compile_again_is_noop (n : SassSrcNode) (s : state) :
  (compile W n ;; compile W n) s = compile W n s.
Proof.
  unfold bind at 1. destruct (compile W n s) as [[[]|e] s1] eqn:E; [|reflexivity].
  revert E. unfold compile at 1.
  destruct (find_file W (path n)) as [f|] eqn:Hf.
  2:{ intros [= <-]. now apply compile_unresolved. }
  unfold bind, self_compiled_files.
  destruct (truthy f) eqn:Ht; simpl.
  2:{ intros [= <-]. unfold compile. rewrite Hf. unfold bind, self_compiled_files.
      now rewrite Ht. }
  destruct (bool_decide (f ∈ compiled_files s)) eqn:Hin.
  { intros [= <-]. apply bool_decide_eq_true in Hin. now apply (compile_already W n s f). }
  unfold call_sass_compile, open_write.
  destruct (sass_compile W _ _ _) as [content|e]; [|discriminate]. simpl.
  destruct (open_error W (destpath_of f)) as [[?|? ?]|]; [discriminate|discriminate|]. simpl.
  intros [= <-]. apply (compile_already W n _ f Hf). simpl.
  apply elem_of_app. right. apply list_elem_of_singleton. reflexivity.
Qed.

(** Deleting the artifact of a reference a second time in a row does
    nothing more. *)
Theorem delete_again_is_noop (n : SassSrcNode) (s : state) :
  (delete_file W n ;; delete_file W n) s = delete_file W n s.
Proof.
  unfold bind at 1. destruct (delete_file W n s) as [[[]|e] s1] eqn:E; [|reflexivity].
  revert E. unfold delete_file at 1.
  destruct (find_file W (path n)) as [f|] eqn:Hf.
  2:{ intros [= <-]. now apply delete_unresolved. }
  destruct (truthy f) eqn:Ht; simpl.
  2:{ intros [= <-]. unfold delete_file. now rewrite Hf, Ht. }
  unfold bind, isfile, when.
  destruct (bool_decide (is_Some (files s !! destpath_of f))) eqn:Hin.
  2:{ intros [= <-]. apply (delete_absent W n s f Hf).
      apply bool_decide_eq_false in Hin. now apply eq_None_not_Some. }
  unfold os_remove. destruct (remove_error W (destpath_of f)); [discriminate|]. simpl.
  intros [= <-]. apply (delete_absent W n _ f Hf). simpl. apply lookup_delete_eq.
Qed.

End Artifacts.
(** ** More on the walker and on template discovery *)
Section WalkAndFind.
Context {tnode : Type} (W : world tnode).
Import PyStr OsPath.

Lemma walk_nodelist_mono (walk1 walk2 : tnode -> result (list SassSrcNode))
    (nodelist : list (node tnode)) :
  (forall t l, walk1 t = Ok l -> walk2 t = Ok l) ->
  forall l, walk_nodelist walk1 nodelist = Ok l -> walk_nodelist walk2 nodelist = Ok l.
Proof.
  intros Hw. induction nodelist as [|c rest IH]; intros l; simpl; [auto|].
  destruct c as [sn|t].
  - destruct (walk_nodelist walk1 rest) as [ys|e]; [|discriminate].
    intros [= <-]. now rewrite (IH ys eq_refl).
  - destruct (walk1 t) as [xs|e] eqn:E; [|discriminate]. rewrite (Hw t xs E).
    destruct (walk_nodelist walk1 rest) as [ys|e]; [|discriminate].
    intros [= <-]. now rewrite (IH ys eq_refl).
Qed.

(** A walk that runs to its end within one recursion depth yields the
    same nodes, in the same order, within any greater depth. *)
Lemma walk_nodes_deeper (original : tnode) (d d' : nat) (t : tnode)
    (l : list SassSrcNode) :
  (d <= d')%nat ->
  walk_nodes W d t original = Ok l ->
  walk_nodes W d' t original = Ok l.
Proof.
  revert d' t l. induction d as [|d IH]; intros d' t l Hle; simpl; [discriminate|].
  destruct d' as [|d']; [lia|]. simpl.
  destruct (parser_get_nodelist W t original) as [nodelist|e]; [|discriminate].
  apply walk_nodelist_mono. intros t' l'. apply IH. lia.
Qed.

Lemma collect_paths_ok (ls : list loader) (paths ps : gset string) :
  collect_paths ls paths = Ok ps ->
  forall p, p ∈ ps <->
    p ∈ paths \/ exists l srcs, l ∈ ls /\ get_template_sources l = Ok srcs /\ p ∈ srcs.
Proof.
  revert paths. induction ls as [|l ls IH]; intros paths; simpl.
  - intros [= <-] p. split; [auto|]. intros [H|(l & srcs & Hl & _)]; [exact H|].
    inversion Hl.
  - destruct (get_template_sources l) as [srcs|e] eqn:E.
    + intros H p. rewrite (IH _ H), elem_of_union, elem_of_list_to_set. split.
      * intros [[Hp|Hp]|(l' & srcs' & Hl' & Hs' & Hp)].
        -- now left.
        -- right. exists l, srcs. rewrite elem_of_cons. auto.
        -- right. exists l', srcs'. rewrite elem_of_cons. auto.
      * intros [Hp|(l' & srcs' & Hl' & Hs' & Hp)]; [auto|].
        apply elem_of_cons in Hl' as [->|Hl'].
        -- left. right. congruence.
        -- right. eauto.
    + intros H.
      assert (collect_paths ls paths = Ok ps) as H'
        by (destruct (exn_cls e); (discriminate || exact H)).
      intros p. rewrite (IH _ H'). split.
      * intros [Hp|(l' & srcs' & Hl' & Hs' & Hp)]; [auto|].
        right. exists l', srcs'. rewrite elem_of_cons. auto.
      * intros [Hp|(l' & srcs' & Hl' & Hs' & Hp)]; [auto|].
        apply elem_of_cons in Hl' as [->|Hl']; [congruence|]. right. eauto.
Qed.

Lemma collect_paths_raises (ls : list loader) (paths : gset string) (e : exn) :
  collect_paths ls paths = Raise e ->
  exists l, l ∈ ls /\ get_template_sources l = Raise e /\ swallowed (exn_cls e) = false.
Proof.
  revert paths. induction ls as [|l ls IH]; intros paths; simpl; [discriminate|].
  destruct (get_template_sources l) as [srcs|e'] eqn:E.
  - intros H. destruct (IH _ H) as (l' & Hl' & H'). exists l'. rewrite elem_of_cons. auto.
  - destruct (swallowed (exn_cls e')) eqn:Es.
    + intros H.
      assert (collect_paths ls paths = Raise e) as H'
        by (destruct (exn_cls e'); (discriminate || exact H)).
      destruct (IH _ H') as (l' & Hl' & H''). exists l'. rewrite elem_of_cons. auto.
    + intros H. assert (e' = e) as ->
        by (destruct (exn_cls e'); (discriminate || now injection H)).
      exists l. rewrite elem_of_cons. auto.
Qed.

Lemma elem_of_get_loaders (l : loader) :
  l ∈ get_loaders W <->
  exists engine sl,
    engine ∈ engines W /\ sl ∈ engine
    /\ (sl = Simple l \/ exists ls, sl = Wrapping ls /\ l ∈ ls).
Proof.
  unfold get_loaders. rewrite list_elem_of_In, in_flat_map. split.
  - intros (sl & Hsl & Hl). apply in_concat in Hsl as (engine & He & Hsl).
    exists engine, sl. rewrite !list_elem_of_In. split; [exact He|]. split; [exact Hsl|].
    destruct sl as [l'|ls].
    + left. destruct Hl as [->|[]]. reflexivity.
    + right. exists ls. now rewrite list_elem_of_In.
  - intros (engine & sl & He & Hsl & Hl). exists sl. split.
    + apply in_concat. exists engine. now rewrite <- !list_elem_of_In.
    + destruct Hl as [->|(ls & -> & Hl)]; [now left | now apply list_elem_of_In].
Qed.

(** A walk ends with an exception only when the parser raised it for the
    node list of some node, or the recursion depth is used up. *)
Theorem walk_nodes_raise_origin (original : tnode) (d : nat) (t : tnode) (e : exn) :
  walk_nodes W d t original = Raise e ->
  e = Exn RuntimeError "maximum recursion depth exceeded"
  \/ exists t', parser_get_nodelist W t' original = Raise e.
Proof.
  revert t. induction d as [|d IH]; intros t; simpl.
  - intros [= <-]. now left.
  - destruct (parser_get_nodelist W t original) as [nodelist|e'] eqn:Hn.
    + intros H. apply walk_nodelist_raises in H as (t' & _ & H). eapply IH, H.
    + intros [= <-]. right. now exists t.
Qed.

(** What [find_templates] returns: the paths [os.path.join(root, name)]
    of the files [name] that [os.walk] lists in a directory [root] under
    a search path that a loader gives, and that the filter selects. *)
Lemma find_templates_members (templates : gset string) :
  find_templates W = Ok templates ->
  templates <> ∅
  /\ forall p, p ∈ templates <->
       exists path root dirs names name,
         offers_path W path
         /\ (root, dirs, names) ∈ os_walk W path
         /\ name ∈ names
         /\ startswith name "." = false
         /\ (endswith name "h" || endswith name "t" || endswith name "m"
             || endswith name "l") = true
         /\ p = join root name.
Proof.
  unfold find_templates. destruct (bool_decide (TEMPLATE_LOADERS W = [])); [discriminate|].
  destruct (collect_paths (get_loaders W) ∅) as [paths|e] eqn:Hc; [|discriminate].
  destruct (bool_decide (paths = ∅)); [discriminate|].
  destruct (bool_decide (_ = ∅)) eqn:Hne; [discriminate|].
  intros [= <-]. split; [now apply bool_decide_eq_false in Hne|].
  intros p. rewrite elem_of_list_to_set, list_elem_of_In, in_flat_map. split.
  - intros (path & Hpath & Hp). apply in_flat_map in Hp as ([[root dirs] names] & Ht & Hp).
    simpl in Hp. apply list_elem_of_In, list_elem_of_fmap in Hp as (name & -> & Hn).
    apply list_elem_of_filter in Hn as [Hsel Hn].
    rewrite template_name_selected_html in Hsel. apply andb_true_iff in Hsel as [Hdot Hend].
    exists path, root, dirs, names, name.
    split.
    { apply list_elem_of_In, elem_of_elements in Hpath.
      apply (collect_paths_ok _ _ _ Hc) in Hpath as [Hpath|(l & srcs & Hl & Hs & Hpath)].
      - now apply not_elem_of_empty in Hpath.
      - apply elem_of_get_loaders in Hl as (engine & sl & He & Hsl & Hl).
        exists engine, sl, l, srcs. auto. }
    split; [now apply list_elem_of_In|]. split; [exact Hn|].
    split; [now apply negb_true_iff|]. split; [exact Hend | reflexivity].
  - intros (path & root & dirs & names & name & Hoff & Ht & Hn & Hdot & Hend & ->).
    exists path. split.
    + apply list_elem_of_In, elem_of_elements, (collect_paths_ok _ _ _ Hc). right.
      destruct Hoff as (engine & sl & l & srcs & He & Hsl & Hl & Hs & Hp).
      exists l, srcs. split; [|auto]. apply elem_of_get_loaders. eauto.
    + apply in_flat_map. exists (root, dirs, names). split; [now apply list_elem_of_In|].
      simpl. apply list_elem_of_In, list_elem_of_fmap. exists name. split; [reflexivity|].
      apply list_elem_of_filter. split; [|exact Hn].
      rewrite template_name_selected_html, Hdot, Hend. reflexivity.
Qed.

Lemma endswith_html_l (name : string) :
  endswith name ".html" = true -> endswith name "l" = true.
Proof.
  unfold endswith. intros H. apply andb_true_iff in H as [Hlen Heq].
  apply Nat.leb_le in Hlen. apply String.eqb_eq in Heq. simpl in Hlen.
  apply andb_true_iff. split; [apply Nat.leb_le; simpl; lia|].
  replace (String.length name - String.length "l")%nat
    with ((String.length name - String.length ".html") + 4)%nat by (simpl; lia).
  rewrite drop_add, Heq. reflexivity.
Qed.

(** When [find_templates] returns, the set is not empty; each path in
    it is [os.path.join(root, name)] for a file [name] that [os.walk]
    lists in a directory [root] under a search path a loader gives, and
    [name] does not start with a dot; and it holds every such path
    whose [name] ends in [.html]. *)
Theorem find_templates_returns (templates : gset string) :
  find_templates W = Ok templates ->
  templates <> ∅
  /\ (forall p, p ∈ templates ->
        exists path root dirs names name,
          offers_path W path
          /\ (root, dirs, names) ∈ os_walk W path
          /\ name ∈ names
          /\ startswith name "." = false
          /\ p = join root name)
  /\ (forall path root dirs names name,
        offers_path W path ->
        (root, dirs, names) ∈ os_walk W path ->
        name ∈ names ->
        startswith name "." = false ->
        endswith name ".html" = true ->
        join root name ∈ templates).
Proof.
  intros H. destruct (find_templates_members templates H) as [Hne Hiff].
  split; [exact Hne|]. split.
  - intros p Hp. apply Hiff in Hp
      as (path & root & dirs & names & name & Ho & Ht & Hn & Hdot & _ & ->).
    now exists path, root, dirs, names, name.
  - intros path root dirs names name Ho Ht Hn Hdot Hend. apply Hiff.
    exists path, root, dirs, names, name.
    rewrite (endswith_html_l name Hend), !orb_true_r. auto 10.
Qed.

(** When [find_templates] raises, [handle] ends with that exception
    before it prints, calls or touches anything; and the exception is an
    [ImproperlyConfigured], or one that a loader raised for its template
    sources and that is no [ImportError], [AttributeError] or
    [TypeError]. *)
Theorem handle_aborts_before_templates (opts : options) (s0 : state) (e : exn) :
  find_templates W = Raise e ->
  handle W opts s0 = (Raise e, State (files s0) (stdout s0) (calls s0) [])
  /\ (exn_cls e = ImproperlyConfigured
      \/ exists l, l ∈ get_loaders W /\ get_template_sources l = Raise e
                   /\ swallowed (exn_cls e) = false).
Proof.
  intros H. split.
  - unfold handle, bind, set_compiled_files, lift. now rewrite H.
  - revert H. unfold find_templates.
    destruct (bool_decide (TEMPLATE_LOADERS W = [])); [intros [= <-]; now left|].
    destruct (collect_paths (get_loaders W) ∅) as [paths|e'] eqn:Hc.
    + destruct (bool_decide (paths = ∅)); [intros [= <-]; now left|].
      destruct (bool_decide (_ = ∅)); [intros [= <-]; now left | discriminate].
    + intros [= ->]. right. now apply collect_paths_raises in Hc.
Qed.

End WalkAndFind.
(** ** What [show_errors] changes *)
Section ShowErrors.
Context {tnode : Type} (W : world tnode).

Lemma same_but_stdout_refl (s : state) : same_but_stdout s s.
Proof. now repeat split. Qed.

Lemma agree_ret {A} (a : A) : agree (ret a) (ret a).
Proof. intros s1 s2 H. now split. Qed.

Lemma agree_raise {A} (e : exn) : agree (@raise A e) (raise e).
Proof. intros s1 s2 H. now split. Qed.

Lemma agree_lift {A} (r : result A) : agree (lift r) (lift r).
Proof. intros s1 s2 H. now split. Qed.

Lemma agree_bind {A B} (m1 m2 : M A) (k1 k2 : A -> M B) :
  agree m1 m2 -> (forall a, agree (k1 a) (k2 a)) -> agree (bind m1 k1) (bind m2 k2).
Proof.
  intros Hm Hk s1 s2 Hs. unfold bind. destruct (Hm s1 s2 Hs) as [Hr Hs'].
  destruct (m1 s1) as [r1 s1'], (m2 s2) as [r2 s2']. simpl in *. subst r2.
  destruct r1 as [a|e]; [now apply Hk | now split].
Qed.

Lemma agree_for_each {A} (l : list A) (body1 body2 : A -> M unit) :
  (forall x, agree (body1 x) (body2 x)) -> agree (for_each l body1) (for_each l body2).
Proof.
  intros Hb. induction l as [|x l IH]; simpl.
  - apply agree_ret.
  - apply agree_bind; auto.
Qed.

Lemma agree_said (c1 c2 : bool) (msg1 msg2 : string) :
  agree (when c1 (stdout_write msg1)) (when c2 (stdout_write msg2)).
Proof. intros s1 s2 H. now destruct c1, c2. Qed.

Lemma agree_stdout_write (msg1 msg2 : string) : agree (stdout_write msg1) (stdout_write msg2).
Proof. intros s1 s2 H. now split. Qed.

Lemma agree_process (opts : options) (n : SassSrcNode) :
  agree (process W opts n) (process W opts n).
Proof.
  intros [fs out1 cs done] [fs2 out2 cs2 done2] (Hf & Hc & Hd). simpl in *. subst.
  unfold process. destruct (delete_files opts).
  - unfold delete_file. destruct (find_file W (path n)) as [f|]; [|now repeat split].
    destruct (negb (PyStr.truthy f)); [now repeat split|].
    unfold bind, isfile, when. simpl. destruct (bool_decide _); [|now repeat split].
    unfold os_remove. simpl.
    destruct (remove_error W (destpath_of f)); now repeat split.
  - unfold compile. destruct (find_file W (path n)) as [f|]; [|now repeat split].
    unfold bind, self_compiled_files. simpl. destruct (_ || _); [now repeat split|].
    unfold call_sass_compile, open_write. simpl.
    destruct (sass_compile W _ _ _); [|now repeat split]. simpl.
    destruct (open_error W (destpath_of f)) as [[?|? ?]|]; now repeat split.
Qed.

Lemma agree_parse_template (opts1 opts2 : options) (name : string) :
  delete_files opts1 = delete_files opts2 ->
  agree (parse_template W opts1 name) (parse_template W opts2 name).
Proof.
  intros Hmode.
  assert (forall template, agree (walk_and_process W opts1 name template)
                                 (walk_and_process W opts2 name template)) as Hwp.
  { intros template. unfold walk_and_process.
    destruct (match template with Some t => _ | None => _ end) as [nodes|e].
    - apply agree_for_each. intros n. rewrite Hmode. apply (agree_process opts2 n).
    - destruct (is_Exception e); [apply agree_said | apply agree_raise]. }
  unfold parse_template. destruct (parser_parse W name) as [t|e]; [apply Hwp|].
  destruct (exn_cls e); try apply agree_raise; try apply agree_said.
  apply agree_bind; [apply agree_said | auto].
Qed.

(** Two runs in the same mode from the same files return the same,
    leave the same files, make the same calls and count the same
    sources, whether [show_errors] is set or not: the flag changes what
    is printed only. *)
Theorem show_errors_changes_output_only (opts1 opts2 : options) (s1 s2 : state) :
  delete_files opts1 = delete_files opts2 ->
  same_but_stdout s1 s2 ->
  (handle W opts1 s1).1 = (handle W opts2 s2).1
  /\ same_but_stdout (handle W opts1 s1).2 (handle W opts2 s2).2.
Proof.
  intros Hmode. revert s1 s2. change (agree (handle W opts1) (handle W opts2)).
  unfold handle.
  apply agree_bind; [intros s1 s2 (Hf & Hc & _); now repeat split|]. intros _.
  apply agree_bind; [apply agree_lift|]. intros templates.
  apply agree_bind.
  - apply agree_for_each. intros name. now apply agree_parse_template.
  - intros _. apply agree_bind.
    + intros s1 s2 (Hf & Hc & Hd). unfold self_compiled_files. simpl.
      rewrite Hd. now repeat split.
    + intros compiled. apply agree_stdout_write.
Qed.

(** A template on which the parser raises one of the four kinds that
    [parse_template] names is skipped: [parse_template] returns
    normally, leaves the files, the calls and [compiled_files] as they
    were, and writes nothing unless [show_errors] is set. *)
Theorem parse_failure_skips_template (opts : options) (name : string) (e : exn) (s : state) :
  parser_parse W name = Raise e ->
  parse_failure_kind (exn_cls e) = true ->
  (parse_template W opts name s).1 = Ok tt
  /\ same_but_stdout s (parse_template W opts name s).2
  /\ (show_errors opts = false -> (parse_template W opts name s).2 = s).
Proof.
  intros Hp Hk. rewrite (parse_template_on_parse_error W opts name e s Hp).
  destruct s as [fs out cs done].
  destruct (exn_cls e); try discriminate; simpl;
    (split; [reflexivity|]; split; [now repeat split|]);
    intros ->; now rewrite app_nil_r.
Qed.

End ShowErrors.
(** ** Reasoning about the references a run processes *)
Section Coverage.
Context {tnode : Type} (W : world tnode).

Lemma preserves_for_each_in {A} (I : state -> Prop) (l : list A) (body : A -> M unit) :
  (forall x, x ∈ l -> preserves I (body x)) -> preserves I (for_each l body).
Proof.
  induction l as [|x l IH]; intros Hb; simpl.
  - apply preserves_ret.
  - apply preserves_bind.
    + apply Hb. apply elem_of_cons. now left.
    + intros _. apply IH. intros y Hy. apply Hb. apply elem_of_cons. now right.
Qed.

(** [parse_template] keeps a property that the messages and the
    processing of the nodes of this template keep. *)
Lemma preserves_parse_template_in (I : state -> Prop) (opts : options) (name : string) :
  (forall msg, preserves I (stdout_write msg)) ->
  (forall t l n, parser_parse W name = Ok t ->
                 walk_nodes W (recursion_limit W) t t = Ok l -> n ∈ l ->
                 preserves I (process W opts n)) ->
  preserves I (parse_template W opts name).
Proof.
  intros Hout Hstep. unfold parse_template.
  destruct (parser_parse W name) as [t|e] eqn:Hp.
  - unfold walk_and_process.
    destruct (walk_nodes W (recursion_limit W) t t) as [nodes|e] eqn:Hw.
    + apply preserves_for_each_in. intros n Hn. now apply (Hstep t nodes n).
    + destruct (is_Exception e); [|apply preserves_raise]. apply preserves_when, Hout.
  - assert (preserves I (walk_and_process W opts name None)) as Hnone.
    { unfold walk_and_process. simpl. apply preserves_when, Hout. }
    destruct (exn_cls e); try apply preserves_raise; try (apply preserves_when, Hout).
    apply preserves_bind; [apply preserves_when, Hout | auto].
Qed.

(** A property that the messages and the processing of the references
    of the site keep holds after [handle] when it holds once
    [compiled_files] is reset. *)
Lemma handle_establishes_in (I : state -> Prop) (opts : options) (s0 : state) :
  (forall msg, preserves I (stdout_write msg)) ->
  (forall n, referenced W n -> preserves I (process W opts n)) ->
  I (State (files s0) (stdout s0) (calls s0) []) ->
  I (handle W opts s0).2.
Proof.
  intros Hout Hstep H0. unfold handle.
  change (bind (set_compiled_files []) ?k s0)
    with (k tt (State (files s0) (stdout s0) (calls s0) [])).
  revert H0. generalize (State (files s0) (stdout s0) (calls s0) []).
  unfold bind at 1, lift.
  destruct (find_templates W) as [templates|e] eqn:Hft; [|auto].
  apply preserves_bind.
  - apply preserves_for_each_in. intros name Hname. apply elem_of_elements in Hname.
    apply preserves_parse_template_in; [exact Hout|].
    intros t l n Hp Hw Hn. apply Hstep. now exists templates, name, t, l.
  - intros _. apply preserves_bind; [apply preserves_self_compiled_files|].
    intros compiled. apply Hout.
Qed.

(** After a loop that returns normally, what each body establishes, and
    every body keeps, holds for every element. *)
Lemma for_each_covers {A} (J : state -> Prop) (Q : A -> state -> Prop)
    (l : list A) (body : A -> M unit) :
  (forall y, y ∈ l -> preserves J (body y)) ->
  (forall x y, y ∈ l -> preserves (Q x) (body y)) ->
  (forall x s, x ∈ l -> J s -> (body x s).1 = Ok tt -> Q x (body x s).2) ->
  forall s s', J s -> for_each l body s = (Ok tt, s') ->
  forall x, x ∈ l -> Q x s'.
Proof.
  induction l as [|y l IH]; intros HJ HQ HE s s' Hs Hrun x Hx; [inversion Hx|].
  simpl in Hrun. unfold bind in Hrun.
  destruct (body y s) as [[[]|e] s1] eqn:E; [|discriminate].
  assert (y ∈ y :: l) as Hy by (apply elem_of_cons; now left).
  assert (J s1) as Hs1 by (pose proof (HJ y Hy s Hs) as H; now rewrite E in H).
  apply elem_of_cons in Hx as [->|Hx].
  - assert (Q y s1) as Hq.
    { pose proof (HE y s Hy Hs) as H. rewrite E in H. now apply H. }
    assert (preserves (Q y) (for_each l body)) as Hp.
    { apply preserves_for_each_in. intros z Hz. apply HQ. apply elem_of_cons. now right. }
    pose proof (Hp s1 Hq) as H. now rewrite Hrun in H.
  - apply (IH (fun z Hz => HJ z (proj2 (elem_of_cons _ _ _) (or_intror Hz)))
              (fun z w Hw => HQ z w (proj2 (elem_of_cons _ _ _) (or_intror Hw)))
              (fun z s Hz => HE z s (proj2 (elem_of_cons _ _ _) (or_intror Hz)))
              s1 s' Hs1 Hrun x Hx).
Qed.

(** After a run that returns normally, what the processing of each
    reference establishes, and the messages and the processing of every
    reference keep, holds for every reference of the site. *)
Lemma handle_covers (J : state -> Prop) (Q : SassSrcNode -> state -> Prop)
    (opts : options) (s0 s' : state) :
  (forall msg, preserves J (stdout_write msg)) ->
  (forall n msg, preserves (Q n) (stdout_write msg)) ->
  (forall m, referenced W m -> preserves J (process W opts m)) ->
  (forall n m, referenced W m -> preserves (Q n) (process W opts m)) ->
  (forall n s, referenced W n -> J s ->
               (process W opts n s).1 = Ok tt -> Q n (process W opts n s).2) ->
  J (State (files s0) (stdout s0) (calls s0) []) ->
  handle W opts s0 = (Ok tt, s') ->
  forall n, referenced W n -> Q n s'.
Proof.
  intros HJout HQout HJ HQ HE H0 Hrun n Hn.
  revert Hrun. unfold handle.
  change (bind (set_compiled_files []) ?k s0)
    with (k tt (State (files s0) (stdout s0) (calls s0) [])).
  unfold bind at 1, lift.
  destruct (find_templates W) as [templates|e] eqn:Hft; [|discriminate].
  unfold bind at 1.
  destruct (for_each (elements templates) (parse_template W opts) _)
    as [[[]|e] s1] eqn:Hloop; [|discriminate].
  unfold bind, self_compiled_files. intros [= <-].
  apply (HQout n _ s1).
  destruct Hn as (templates' & name & t & l & Hft' & Hname & Hp & Hw & Hn).
  assert (templates' = templates) as -> by congruence.
  assert (forall name0 t0 l0 m, name0 ∈ elements templates ->
            parser_parse W name0 = Ok t0 ->
            walk_nodes W (recursion_limit W) t0 t0 = Ok l0 -> m ∈ l0 ->
            referenced W m) as Href.
  { intros name0 t0 l0 m Hname0 Hp0 Hw0 Hm. apply elem_of_elements in Hname0.
    now exists templates, name0, t0, l0. }
  refine (for_each_covers J
            (fun name s => forall t l n, parser_parse W name = Ok t ->
                             walk_nodes W (recursion_limit W) t t = Ok l -> n ∈ l -> Q n s)
            (elements templates) (parse_template W opts) _ _ _ _ s1 H0 Hloop
            name _ t l n Hp Hw Hn).
  - intros y Hy. apply preserves_parse_template_in; [exact HJout|].
    intros t0 l0 m Hp0 Hw0 Hm. apply HJ. now apply (Href y t0 l0).
  - intros x y Hy s Hs t0 l0 m Hp0 Hw0 Hm.
    refine (preserves_parse_template_in (Q m) opts y (HQout m) _ s _).
    + intros t1 l1 m1 Hp1 Hw1 Hm1. apply HQ. now apply (Href y t1 l1).
    + now apply (Hs t0 l0).
  - intros x s Hx Hs Hok t0 l0 m Hp0 Hw0 Hm. revert Hok. unfold parse_template.
    rewrite Hp0. unfold walk_and_process. rewrite Hw0. intros Hok.
    refine (for_each_covers J Q l0 (process W opts) _ _ _ s _ Hs _ m Hm).
    + intros y Hy. apply HJ. now apply (Href x t0 l0).
    + intros z y Hy. apply HQ. now apply (Href x t0 l0).
    + intros z s2 Hz. apply HE. now apply (Href x t0 l0).
    + destruct (for_each l0 _ s) as [r s2] eqn:E. simpl in Hok. subst r.
      reflexivity.
  - now apply elem_of_elements.
Qed.

(** What holds after a loop: [P] when it returns normally, [R] when a
    body raises. *)
Lemma for_each_outcome {A} (P R : state -> Prop) (l : list A) (body : A -> M unit) :
  (forall x, x ∈ l -> forall s, P s ->
     match (body x s).1 with Ok _ => P (body x s).2 | Raise _ => R (body x s).2 end) ->
  forall s, P s ->
    match (for_each l body s).1 with
    | Ok _ => P (for_each l body s).2
    | Raise _ => R (for_each l body s).2
    end.
Proof.
  induction l as [|x l IH]; intros Hb s Hs; simpl; [exact Hs|].
  unfold bind.
  pose proof (Hb x (proj2 (elem_of_cons _ _ _) (or_introl eq_refl)) s Hs) as Hx.
  destruct (body x s) as [[[]|e] s1]; simpl in *; [|exact Hx].
  apply IH; [|exact Hx]. intros y Hy. apply Hb. apply elem_of_cons. now right.
Qed.

Lemma parse_template_outcome (P R : state -> Prop) (opts : options) (name : string) :
  (forall s, P s -> R s) ->
  (forall msg, preserves P (stdout_write msg)) ->
  (forall t l n, parser_parse W name = Ok t ->
                 walk_nodes W (recursion_limit W) t t = Ok l -> n ∈ l ->
                 forall s, P s ->
                   match (process W opts n s).1 with
                   | Ok _ => P (process W opts n s).2
                   | Raise _ => R (process W opts n s).2
                   end) ->
  forall s, P s ->
    match (parse_template W opts name s).1 with
    | Ok _ => P (parse_template W opts name s).2
    | Raise _ => R (parse_template W opts name s).2
    end.
Proof.
  intros HPR Hout Hstep s Hs.
  assert (forall c msg s, P s ->
            match (when c (stdout_write msg) s).1 with
            | Ok _ => P (when c (stdout_write msg) s).2
            | Raise _ => R (when c (stdout_write msg) s).2
            end) as Hsaid.
  { intros c msg s1 Hs1. destruct c; [now apply Hout | exact Hs1]. }
  unfold parse_template. destruct (parser_parse W name) as [t|e] eqn:Hp.
  - unfold walk_and_process.
    destruct (walk_nodes W (recursion_limit W) t t) as [nodes|e] eqn:Hw.
    + apply for_each_outcome; [|exact Hs]. intros n Hn. now apply (Hstep t nodes n).
    + destruct (is_Exception e); [now apply Hsaid | now apply HPR].
  - destruct (exn_cls e); try (now apply HPR); try (now apply Hsaid).
    unfold bind.
    pose proof (Hsaid (show_errors opts)
      ("UnicodeDecodeError while trying to read template " +:+ name +:+ PyStr.nl) s Hs)
      as H1.
    destruct (when _ _ s) as [[[]|e1] s1]; simpl in *; [|exact H1].
    unfold walk_and_process. simpl. now apply Hsaid.
Qed.

(** [handle], step by step. *)
Lemma handle_unfold (opts : options) (s0 : state) :
  handle W opts s0
  = match find_templates W with
    | Raise e => (Raise e, State (files s0) (stdout s0) (calls s0) [])
    | Ok templates =>
        match for_each (elements templates) (parse_template W opts)
                (State (files s0) (stdout s0) (calls s0) []) with
        | (Ok _, s1) =>
            (Ok tt, State (files s1)
                          (stdout s1 ++ [summary opts (List.length (compiled_files s1))])
                          (calls s1) (compiled_files s1))
        | (Raise e, s1) => (Raise e, s1)
        end
    end.
Proof.
  unfold handle, bind, set_compiled_files, lift, self_compiled_files, stdout_write.
  destruct (find_templates W) as [templates|e]; [|reflexivity].
  now destruct (for_each _ _ _) as [[[]|e] s1].
Qed.

(** What holds after a run: [P], which the messages keep and the
    processing of a reference of the site keeps when it returns
    normally, if the run returns normally; [R], which [P] implies and
    the processing of a reference that raises leaves, if the run ends
    with an exception. *)
Lemma handle_outcome (P R : state -> Prop) (opts : options) (s0 : state) :
  (forall s, P s -> R s) ->
  (forall msg, preserves P (stdout_write msg)) ->
  (forall n, referenced W n -> forall s, P s ->
     match (process W opts n s).1 with
     | Ok _ => P (process W opts n s).2
     | Raise _ => R (process W opts n s).2
     end) ->
  P (State (files s0) (stdout s0) (calls s0) []) ->
  match (handle W opts s0).1 with
  | Ok _ => P (handle W opts s0).2
  | Raise _ => R (handle W opts s0).2
  end.
Proof.
  intros HPR Hout Hstep H0. rewrite handle_unfold.
  destruct (find_templates W) as [templates|e] eqn:Hft; [|now apply HPR].
  pose proof (for_each_outcome P R (elements templates) (parse_template W opts)) as Hloop.
  specialize (Hloop (fun name Hname =>
    parse_template_outcome P R opts name HPR Hout
      (fun t l n Hp Hw Hn =>
         Hstep n (ex_intro _ templates (ex_intro _ name (ex_intro _ t (ex_intro _ l
           (conj Hft (conj (proj1 (elem_of_elements _ _) Hname)
              (conj Hp (conj Hw Hn)))))))))) _ H0).
  destruct (for_each _ _ _) as [[[]|e] s1]; simpl in *; [|exact Hloop].
  now apply (Hout _ s1).
Qed.

End Coverage.
(** ** What a run leaves on disk *)
Section RunEffects.
Context {tnode : Type} (W : world tnode).

Lemma elem_of_destpaths_snoc (p : string) (l : list string) (f : string) :
  p ∈ destpath_of <$> (l ++ [f])%list <-> p ∈ destpath_of <$> l \/ p = destpath_of f.
Proof.
  rewrite fmap_app, elem_of_app. simpl. now rewrite list_elem_of_singleton.
Qed.

(** Both operations change the files at the artifacts of the sources
    they record only, when they return normally, and [delete_file] also
    when it raises. *)
Lemma process_touches_artifacts (fs0 : gmap string string) (opts : options)
    (n : SassSrcNode) (s : state) :
  (forall p, p ∉ destpath_of <$> compiled_files s -> files s !! p = fs0 !! p) ->
  match (process W opts n s).1 with
  | Ok _ =>
      forall p, p ∉ destpath_of <$> compiled_files (process W opts n s).2 ->
                files (process W opts n s).2 !! p = fs0 !! p
  | Raise _ =>
      if delete_files opts
      then forall p, p ∉ destpath_of <$> compiled_files (process W opts n s).2 ->
                     files (process W opts n s).2 !! p = fs0 !! p
      else True
  end.
Proof.
  intros Hs. unfold process. destruct (delete_files opts).
  - unfold delete_file. destruct (find_file W (path n)) as [f|]; [|exact Hs].
    destruct (negb (PyStr.truthy f)); [exact Hs|].
    unfold bind, isfile, when. destruct (bool_decide _); [|exact Hs].
    unfold os_remove. destruct (remove_error W (destpath_of f)); [exact Hs|].
    simpl. intros p Hp. rewrite elem_of_destpaths_snoc in Hp.
    rewrite lookup_delete_ne by (intros <-; apply Hp; now right). apply Hs. tauto.
  - unfold compile. destruct (find_file W (path n)) as [f|]; [|exact Hs].
    unfold bind, self_compiled_files. destruct (_ || _); [exact Hs|].
    unfold call_sass_compile, open_write.
    destruct (sass_compile W _ _ _); [|exact I]. simpl.
    destruct (open_error W (destpath_of f)) as [[?|? ?]|]; [exact I|exact I|].
    simpl. intros p Hp. rewrite elem_of_destpaths_snoc in Hp.
    rewrite lookup_insert_ne by (intros <-; apply Hp; now right). apply Hs. tauto.
Qed.

Lemma handle_frame (opts : options) (s0 : state) :
  match (handle W opts s0).1 with
  | Ok _ =>
      forall p, p ∉ destpath_of <$> compiled_files (handle W opts s0).2 ->
                files (handle W opts s0).2 !! p = files s0 !! p
  | Raise _ =>
      if delete_files opts
      then forall p, p ∉ destpath_of <$> compiled_files (handle W opts s0).2 ->
                     files (handle W opts s0).2 !! p = files s0 !! p
      else True
  end.
Proof.
  apply (handle_outcome W
           (fun s => forall p, p ∉ destpath_of <$> compiled_files s ->
                               files s !! p = files s0 !! p)
           (fun s => if delete_files opts
                     then forall p, p ∉ destpath_of <$> compiled_files s ->
                                    files s !! p = files s0 !! p
                     else True)).
  - intros s H. now destruct (delete_files opts).
  - intros msg s H. exact H.
  - intros n _ s Hs. now apply process_touches_artifacts.
  - reflexivity.
Qed.

(** When the run returns normally, and in delete mode also when it
    ends with an exception, a file that is not the artifact of a source
    counted in the summary is after the run what it was before. *)
Theorem handle_touches_artifacts_only (opts : options) (s0 : state) (p : string) :
  delete_files opts = true \/ (handle W opts s0).1 = Ok tt ->
  p ∉ destpath_of <$> compiled_files (handle W opts s0).2 ->
  files (handle W opts s0).2 !! p = files s0 !! p.
Proof.
  intros Hcase. pose proof (handle_frame opts s0) as H. revert p.
  destruct (handle W opts s0).1 as [[]|e]; [exact H|].
  destruct Hcase as [Hd|?]; [rewrite Hd in H; exact H | discriminate].
Qed.

(** After a delete run, the artifact of every source counted in the
    summary is gone. *)
Theorem delete_run_removes_artifacts (opts : options) (s0 : state) (f : string) :
  delete_files opts = true ->
  f ∈ compiled_files (handle W opts s0).2 ->
  files (handle W opts s0).2 !! destpath_of f = None.
Proof.
  intros Hmode. revert f.
  refine (proj2 (handle_establishes W
            (fun s => NoDup (compiled_files s)
                      /\ forall f, f ∈ compiled_files s -> files s !! destpath_of f = None)
            opts s0 _ _ _)).
  - intros msg s H. exact H.
  - intros n. rewrite Hmode. apply delete_keeps_distinct.
  - simpl. split; [apply NoDup_nil_2|]. intros f Hf. inversion Hf.
Qed.

(** Compile mode, however [compile] ends: the artifact of every source
    recorded is a file. *)
Lemma compile_keeps_artifacts (n : SassSrcNode) :
  preserves (fun s => forall f, f ∈ compiled_files s -> is_Some (files s !! destpath_of f))
            (compile W n).
Proof.
  intros s Hs. unfold compile. destruct (find_file W (path n)) as [f0|]; [|exact Hs].
  unfold bind, self_compiled_files. destruct (_ || _); [exact Hs|].
  unfold call_sass_compile, open_write.
  destruct (sass_compile W _ _ _) as [c0|e]; [|exact Hs]. simpl.
  destruct (open_error W (destpath_of f0)) as [[?|? written]|]; simpl; [exact Hs| |].
  - intros f Hf. apply lookup_insert_is_Some'. right. now apply Hs.
  - intros f Hf. apply lookup_insert_is_Some'. apply elem_of_app in Hf as [Hf|Hf].
    + right. now apply Hs.
    + apply list_elem_of_singleton in Hf as ->. now left.
Qed.

(** Compile mode, when [compile] returns normally: the artifact of a
    recorded source holds what the compiler returned for the last
    source recorded with that artifact, compiled for a reference of the
    site. *)
Lemma compile_keeps_output (n : SassSrcNode) (s : state) :
  referenced W n ->
  (forall f, f ∈ compiled_files s ->
     exists l1 g l2 m content,
       compiled_files s = (l1 ++ g :: l2)%list
       /\ (forall h, h ∈ l2 -> destpath_of h <> destpath_of f)
       /\ destpath_of g = destpath_of f
       /\ referenced W m /\ find_file W (path m) = Some g
       /\ sass_compile W (include_paths m) g (output_style W) = Ok content
       /\ files s !! destpath_of f = Some content) ->
  (compile W n s).1 = Ok tt ->
  forall f, f ∈ compiled_files (compile W n s).2 ->
    exists l1 g l2 m content,
      compiled_files (compile W n s).2 = (l1 ++ g :: l2)%list
      /\ (forall h, h ∈ l2 -> destpath_of h <> destpath_of f)
      /\ destpath_of g = destpath_of f
      /\ referenced W m /\ find_file W (path m) = Some g
      /\ sass_compile W (include_paths m) g (output_style W) = Ok content
      /\ files (compile W n s).2 !! destpath_of f = Some content.
Proof.
  intros Hn Hs. unfold compile.
  destruct (find_file W (path n)) as [f0|] eqn:Hf0; [|intros _; exact Hs].
  unfold bind, self_compiled_files. destruct (_ || _); [intros _; exact Hs|].
  unfold call_sass_compile, open_write.
  destruct (sass_compile W _ _ _) as [c0|e] eqn:Hc; [|discriminate]. simpl.
  destruct (open_error W (destpath_of f0)) as [[?|? ?]|]; [discriminate|discriminate|].
  simpl. intros _ f Hf.
  destruct (decide (destpath_of f0 = destpath_of f)) as [Heq|Hne].
  - exists (compiled_files s), f0, [], n, c0. split; [reflexivity|].
    split; [intros h Hh; inversion Hh|]. split; [exact Heq|]. split; [exact Hn|].
    split; [exact Hf0|]. split; [exact Hc|]. rewrite <- Heq. apply lookup_insert_eq.
  - apply elem_of_app in Hf as [Hf|Hf].
    2:{ apply list_elem_of_singleton in Hf as ->. contradiction. }
    destruct (Hs f Hf) as (l1 & g & l2 & m & content & Hl & Hlast & Hg & Hm & Hfm & Hcm & Hfile).
    exists l1, g, (l2 ++ [f0])%list, m, content. split.
    { rewrite Hl, <- app_assoc. reflexivity. }
    split.
    { intros h Hh. apply elem_of_app in Hh as [Hh|Hh]; [now apply Hlast|].
      now apply list_elem_of_singleton in Hh as ->. }
    split; [exact Hg|]. split; [exact Hm|]. split; [exact Hfm|]. split; [exact Hcm|].
    now rewrite lookup_insert_ne.
Qed.

(** After a compile run that returns normally, the artifact of every
    source counted in the summary is on disk and holds what the
    compiler returned, with the include paths of a reference of the
    site and the configured style, for the last source counted that has
    this artifact: for the source itself when no other source counted
    shares its artifact. *)
Theorem compile_run_leaves_artifacts (opts : options) (s0 s' : state) (f : string) :
  delete_files opts = false ->
  handle W opts s0 = (Ok tt, s') ->
  f ∈ compiled_files s' ->
  (exists l1 g l2 n content,
     compiled_files s' = (l1 ++ g :: l2)%list
     /\ (forall h, h ∈ l2 -> destpath_of h <> destpath_of f)
     /\ destpath_of g = destpath_of f
     /\ referenced W n /\ find_file W (path n) = Some g
     /\ sass_compile W (include_paths n) g (output_style W) = Ok content
     /\ files s' !! destpath_of f = Some content)
  /\ ((forall g, g ∈ compiled_files s' -> destpath_of g = destpath_of f -> g = f) ->
      exists n content,
        referenced W n /\ find_file W (path n) = Some f
        /\ sass_compile W (include_paths n) f (output_style W) = Ok content
        /\ files s' !! destpath_of f = Some content).
Proof.
  intros Hmode Hrun Hf.
  pose proof (handle_outcome W
    (fun s => forall f, f ∈ compiled_files s ->
       exists l1 g l2 m content,
         compiled_files s = (l1 ++ g :: l2)%list
         /\ (forall h, h ∈ l2 -> destpath_of h <> destpath_of f)
         /\ destpath_of g = destpath_of f
         /\ referenced W m /\ find_file W (path m) = Some g
         /\ sass_compile W (include_paths m) g (output_style W) = Ok content
         /\ files s !! destpath_of f = Some content)
    (fun _ => True) opts s0) as H.
  rewrite Hrun in H. simpl in H.
  assert (exists l1 g l2 n content,
     compiled_files s' = (l1 ++ g :: l2)%list
     /\ (forall h, h ∈ l2 -> destpath_of h <> destpath_of f)
     /\ destpath_of g = destpath_of f
     /\ referenced W n /\ find_file W (path n) = Some g
     /\ sass_compile W (include_paths n) g (output_style W) = Ok content
     /\ files s' !! destpath_of f = Some content) as Hgen.
  { apply H; [auto | now intros msg s Hs | | now intros g Hg; inversion Hg | exact Hf].
    intros n Hn s Hs. unfold process. rewrite Hmode.
    destruct (compile W n s).1 as [[]|e] eqn:E; [|exact I].
    now apply compile_keeps_output. }
  split; [exact Hgen|]. intros Halone.
  destruct Hgen as (l1 & g & l2 & n & content & Hl & _ & Hg & Hn & Hfn & Hc & Hfile).
  assert (g = f) as ->.
  { apply Halone; [|exact Hg]. rewrite Hl. apply elem_of_app. right.
    apply elem_of_cons. now left. }
  now exists n, content.
Qed.

(** Each operation opens one artifact for writing, or calls
    [os.remove] once, for each source it records, and once more when
    that statement raises. *)
Lemma process_counts (s0 : state) (opts : options) (n : SassSrcNode) (s : state) :
  let counted (s : state) (k : nat) : Prop :=
    exists extra,
      calls s = (calls s0 ++ extra)%list
      /\ List.length (filter (fun c => (if delete_files opts then is_remove c
                                        else is_write c) = true) extra) = k in
  counted s (List.length (compiled_files s)) ->
  match (process W opts n s).1 with
  | Ok _ => counted (process W opts n s).2 (List.length (compiled_files (process W opts n s).2))
  | Raise _ =>
      counted (process W opts n s).2 (List.length (compiled_files (process W opts n s).2))
      \/ counted (process W opts n s).2
           (S (List.length (compiled_files (process W opts n s).2)))
  end.
Proof.
  intros counted (extra & Hc & Hn). unfold process, counted. destruct (delete_files opts).
  - unfold delete_file. destruct (find_file W (path n)) as [f|]; [|simpl; eauto].
    destruct (negb (PyStr.truthy f)); [simpl; eauto|].
    unfold bind, isfile, when. destruct (bool_decide _); [|simpl; eauto].
    unfold os_remove.
    assert (exists extra',
              (calls s ++ [CallRemove (destpath_of f)])%list = (calls s0 ++ extra')%list
              /\ List.length (filter (fun c => is_remove c = true) extra')
                 = S (List.length (compiled_files s))) as Hcalled.
    { exists (extra ++ [CallRemove (destpath_of f)])%list. split.
      - now rewrite Hc, app_assoc.
      - rewrite filter_app, length_app, Hn. simpl. lia. }
    destruct (remove_error W (destpath_of f)); simpl; [now right|].
    rewrite length_app. simpl.
    replace (List.length (compiled_files s) + 1)%nat with (S (List.length (compiled_files s)))
      by lia.
    exact Hcalled.
  - unfold compile. destruct (find_file W (path n)) as [f|]; [|simpl; eauto].
    unfold bind, self_compiled_files. destruct (_ || _); [simpl; eauto|].
    unfold call_sass_compile, open_write.
    assert (exists extra',
               (calls s ++ [CallCompile (include_paths n) f (output_style W)])%list
               = (calls s0 ++ extra')%list
               /\ List.length (filter (fun c => is_write c = true) extra')
                  = List.length (compiled_files s)) as Hcompiled.
    { exists (extra ++ [CallCompile (include_paths n) f (output_style W)])%list. split.
      - now rewrite Hc, <- app_assoc.
      - rewrite filter_app, length_app, Hn. simpl. lia. }
    destruct (sass_compile W _ _ _) as [content|e]; [|simpl; now left]. simpl.
    assert (exists extra',
               ((calls s ++ [CallCompile (include_paths n) f (output_style W)])
                ++ [CallWrite (destpath_of f) content (preferred_encoding W)])%list
               = (calls s0 ++ extra')%list
               /\ List.length (filter (fun c => is_write c = true) extra')
                  = S (List.length (compiled_files s))) as Hwritten.
    { destruct Hcompiled as (extra' & Hc' & Hn').
      exists (extra' ++ [CallWrite (destpath_of f) content (preferred_encoding W)])%list.
      split.
      - now rewrite Hc', app_assoc.
      - rewrite filter_app, length_app, Hn'. simpl. lia. }
    destruct (open_error W (destpath_of f)) as [[?|? ?]|]; simpl; [now right|now right|].
    rewrite length_app. simpl.
    replace (List.length (compiled_files s) + 1)%nat with (S (List.length (compiled_files s)))
      by lia.
    exact Hwritten.
Qed.

(** The count of the summary and the calls of the run.  When the run
    returns normally, the count is the number of times it opened an
    artifact for writing, in compile mode, and the number of calls of
    [os.remove] it made, in delete mode; when the run ends with an
    exception, the run made that many or one more, the one that
    raised. *)
Theorem count_is_files_written_or_removed (opts : options) (s0 : state) :
  exists extra,
    calls (handle W opts s0).2 = (calls s0 ++ extra)%list
    /\ let made :=
         List.length (filter (fun c => (if delete_files opts then is_remove c
                                        else is_write c) = true) extra) in
       let count := List.length (compiled_files (handle W opts s0).2) in
       match (handle W opts s0).1 with
       | Ok _ => made = count
       | Raise _ => made = count \/ made = S count
       end.
Proof.
  pose proof (handle_outcome W
    (fun s => exists extra,
       calls s = (calls s0 ++ extra)%list
       /\ List.length (filter (fun c => (if delete_files opts then is_remove c
                                         else is_write c) = true) extra)
          = List.length (compiled_files s))
    (fun s =>
       (exists extra,
          calls s = (calls s0 ++ extra)%list
          /\ List.length (filter (fun c => (if delete_files opts then is_remove c
                                            else is_write c) = true) extra)
             = List.length (compiled_files s))
       \/ (exists extra,
             calls s = (calls s0 ++ extra)%list
             /\ List.length (filter (fun c => (if delete_files opts then is_remove c
                                               else is_write c) = true) extra)
                = S (List.length (compiled_files s))))
    opts s0) as H.
  assert (forall (l extra extra' : list call),
            (l ++ extra)%list = (l ++ extra')%list -> extra = extra') as Hinj
    by (intros l x y; apply app_inv_head).
  destruct (handle W opts s0).1 as [[]|e]; simpl in *.
  - destruct H as (extra & Hc & Hn).
    + now left.
    + now intros msg s Hs.
    + intros n _ s Hs. now apply (process_counts s0 opts n s).
    + exists []. split; [simpl; now rewrite app_nil_r | reflexivity].
    + now exists extra.
  - destruct H as [(extra & Hc & Hn)|(extra & Hc & Hn)].
    + now left.
    + now intros msg s Hs.
    + intros n _ s Hs. now apply (process_counts s0 opts n s).
    + exists []. split; [simpl; now rewrite app_nil_r | reflexivity].
    + exists extra. split; [exact Hc | now left].
    + exists extra. split; [exact Hc | now right].
Qed.

End RunEffects.
(** ** The sources a run counts *)
Section Sources.
Context {tnode : Type} (W : world tnode).

(** Neither operation takes a source out of [compiled_files]. *)
Lemma process_grows (opts : options) (m : SassSrcNode) (f : string) :
  preserves (fun s => f ∈ compiled_files s) (process W opts m).
Proof.
  intros s Hs. unfold process. destruct (delete_files opts).
  - unfold delete_file. destruct (find_file W (path m)) as [g|]; [|exact Hs].
    destruct (negb (PyStr.truthy g)); [exact Hs|].
    unfold bind, isfile, when. destruct (bool_decide _); [|exact Hs].
    unfold os_remove. destruct (remove_error W (destpath_of g)); [exact Hs|].
    simpl. apply elem_of_app. now left.
  - unfold compile. destruct (find_file W (path m)) as [g|]; [|exact Hs].
    unfold bind, self_compiled_files. destruct (_ || _); [exact Hs|].
    unfold call_sass_compile, open_write.
    destruct (sass_compile W _ _ _); [|exact Hs]. simpl.
    destruct (open_error W (destpath_of g)) as [[?|? ?]|]; [exact Hs|exact Hs|].
    simpl. apply elem_of_app. now left.
Qed.

(** What the processing of a reference of the site records is a source
    of the site. *)
Lemma process_records_sources (opts : options) (n : SassSrcNode) :
  referenced W n ->
  preserves (fun s => forall f, f ∈ compiled_files s -> referenced_source W f)
            (process W opts n).
Proof.
  intros Hn s Hs. unfold process.
  assert (forall g, find_file W (path n) = Some g -> PyStr.truthy g = true ->
            forall f, f ∈ (compiled_files s ++ [g])%list -> referenced_source W f) as Hnew.
  { intros g Hg Ht f Hf. apply elem_of_app in Hf as [Hf|Hf]; [now apply Hs|].
    apply list_elem_of_singleton in Hf as ->. exists n. split; [exact Hn|].
    split; [exact Hg|]. now destruct g. }
  destruct (delete_files opts).
  - unfold delete_file. destruct (find_file W (path n)) as [g|] eqn:Hg; [|exact Hs].
    destruct (PyStr.truthy g) eqn:Ht; [|exact Hs]. simpl.
    unfold bind, isfile, when. destruct (bool_decide _); [|exact Hs].
    unfold os_remove. destruct (remove_error W (destpath_of g)); [exact Hs|].
    simpl. now apply Hnew.
  - unfold compile. destruct (find_file W (path n)) as [g|] eqn:Hg; [|exact Hs].
    unfold bind, self_compiled_files.
    destruct (PyStr.truthy g) eqn:Ht; [|exact Hs]. simpl.
    destruct (bool_decide _); [exact Hs|].
    unfold call_sass_compile, open_write.
    destruct (sass_compile W _ _ _); [|exact Hs]. simpl.
    destruct (open_error W (destpath_of g)) as [[?|? ?]|]; [exact Hs|exact Hs|].
    simpl. now apply Hnew.
Qed.

Lemma handle_records_sources (opts : options) (s0 : state) (f : string) :
  f ∈ compiled_files (handle W opts s0).2 -> referenced_source W f.
Proof.
  revert f.
  apply (handle_establishes_in W
           (fun s => forall f, f ∈ compiled_files s -> referenced_source W f) opts s0).
  - intros msg s H. exact H.
  - intros n Hn. now apply process_records_sources.
  - simpl. intros f Hf. inversion Hf.
Qed.

(** In either mode and however the run ends, every source counted is
    one that a reference in a template the command found resolves to. *)
Theorem counted_sources_are_referenced (opts : options) (s0 : state) (f : string) :
  f ∈ compiled_files (handle W opts s0).2 ->
  exists n, referenced W n /\ find_file W (path n) = Some f /\ f <> "".
Proof. apply handle_records_sources. Qed.

(** [compile] that returns normally leaves the source of the reference
    recorded. *)
Lemma compile_records (n : SassSrcNode) (s : state) (f : string) :
  (compile W n s).1 = Ok tt ->
  find_file W (path n) = Some f -> f <> "" ->
  f ∈ compiled_files (compile W n s).2.
Proof.
  intros Hok Hf Hne. revert Hok. unfold compile. rewrite Hf.
  unfold bind, self_compiled_files. rewrite (truthy_nonempty _ Hne). simpl.
  destruct (bool_decide (f ∈ compiled_files s)) eqn:Hin.
  { intros _. now apply bool_decide_eq_true in Hin. }
  unfold call_sass_compile, open_write.
  destruct (sass_compile W _ _ _); [|discriminate]. simpl.
  destruct (open_error W (destpath_of f)) as [[?|? ?]|]; [discriminate|discriminate|]. simpl.
  intros _. apply elem_of_app. right. now apply list_elem_of_singleton.
Qed.

Lemma compile_run_sources (opts : options) (s0 s' : state) :
  delete_files opts = false ->
  handle W opts s0 = (Ok tt, s') ->
  forall f, f ∈ compiled_files s' <-> referenced_source W f.
Proof.
  intros Hmode Hrun f. split.
  - intros Hf. apply (handle_records_sources opts s0). now rewrite Hrun.
  - intros (n & Hn & Hf & Hne).
    refine (handle_covers W (fun _ => True)
              (fun n s => forall f, find_file W (path n) = Some f -> f <> "" ->
                                    f ∈ compiled_files s)
              opts s0 s' _ _ _ _ _ I Hrun n Hn f Hf Hne).
    + intros msg s _. exact I.
    + intros m msg s H. exact H.
    + intros m _ s _. exact I.
    + intros m k _ s Hs g Hg Hgne. apply (process_grows opts k g). now apply Hs.
    + intros m s _ _. unfold process. rewrite Hmode. intros Hok g. now apply compile_records.
Qed.

(** A compile run that returns normally counts exactly the sources the
    references of the site resolve to, each once. *)
Theorem compile_run_counts_every_source (opts : options) (s0 s' : state) :
  delete_files opts = false ->
  handle W opts s0 = (Ok tt, s') ->
  NoDup (compiled_files s')
  /\ forall f, f ∈ compiled_files s' <->
       exists n, referenced W n /\ find_file W (path n) = Some f /\ f <> "".
Proof.
  intros Hmode Hrun. split.
  - pose proof (handle_distinct W opts s0) as H. now rewrite Hrun in H.
  - exact (compile_run_sources opts s0 s' Hmode Hrun).
Qed.

End Sources.
(** ** Delete runs *)
Section DeleteRuns.
Context {tnode : Type} (W : world tnode).

(** The shape of a run that returns normally. *)
Lemma handle_ok_inv (opts : options) (s0 s' : state) :
  handle W opts s0 = (Ok tt, s') ->
  exists templates s1,
    find_templates W = Ok templates
    /\ for_each (elements templates) (parse_template W opts)
         (State (files s0) (stdout s0) (calls s0) []) = (Ok tt, s1)
    /\ s' = State (files s1)
                  (stdout s1 ++ [summary opts (List.length (compiled_files s1))])
                  (calls s1) (compiled_files s1).
Proof.
  unfold handle, bind, set_compiled_files, lift, self_compiled_files, stdout_write.
  destruct (find_templates W) as [templates|e] eqn:Hft; [|discriminate].
  destruct (for_each _ _ _) as [[[]|e] s1] eqn:Hloop; [|discriminate].
  intros [= <-]. exists templates, s1. split; [reflexivity|]. split; [exact Hloop|].
  reflexivity.
Qed.

Lemma handle_ok_intro (opts : options) (s0 s1 : state) (templates : gset string) :
  find_templates W = Ok templates ->
  for_each (elements templates) (parse_template W opts)
    (State (files s0) (stdout s0) (calls s0) []) = (Ok tt, s1) ->
  handle W opts s0
  = (Ok tt, State (files s1)
                  (stdout s1 ++ [summary opts (List.length (compiled_files s1))])
                  (calls s1) (compiled_files s1)).
Proof.
  intros Hft Hloop.
  unfold handle, bind, set_compiled_files, lift, self_compiled_files, stdout_write.
  now rewrite Hft, Hloop.
Qed.

(** [parse_template] returns normally on recoverable templates only. *)
Lemma parse_template_ok_recoverable (opts : options) (name : string) (s : state) :
  (parse_template W opts name s).1 = Ok tt -> recoverable W name.
Proof.
  unfold parse_template, recoverable.
  destruct (parser_parse W name) as [t|e].
  - unfold walk_and_process.
    destruct (walk_nodes W (recursion_limit W) t t) as [nodes|e]; [discriminate|].
    destruct (is_Exception e) eqn:E; [|discriminate]. now intros _ e' [= <-].
  - destruct (exn_cls e); (reflexivity || discriminate).
Qed.

Lemma run_ok_recoverable (opts : options) (s0 s' : state) (templates : gset string) :
  find_templates W = Ok templates ->
  handle W opts s0 = (Ok tt, s') ->
  forall name, name ∈ templates -> recoverable W name.
Proof.
  intros Hft Hrun name Hname.
  apply handle_ok_inv in Hrun as (templates' & s1 & Hft' & Hloop & _).
  assert (templates' = templates) as -> by congruence.
  refine (for_each_covers (fun _ => True) (fun name _ => recoverable W name)
            (elements templates) (parse_template W opts) _ _ _ _ s1 I Hloop name _).
  - intros y _ s _. exact I.
  - intros x y _ s H. exact H.
  - intros x s _ _. apply parse_template_ok_recoverable.
  - now apply elem_of_elements.
Qed.

Lemma for_each_returns_in {A} (I : state -> Prop) (l : list A) (body : A -> M unit) :
  (forall x, x ∈ l -> forall s, I s -> (body x s).1 = Ok tt /\ I (body x s).2) ->
  forall s, I s -> (for_each l body s).1 = Ok tt /\ I (for_each l body s).2.
Proof.
  induction l as [|x l IH]; intros Hb s Hs; simpl; [now split|].
  unfold bind. destruct (Hb x (proj2 (elem_of_cons _ _ _) (or_introl eq_refl)) s Hs)
    as [Hok Hs1].
  destruct (body x s) as [r s1]. simpl in *. subst r.
  apply IH; [|exact Hs1]. intros y Hy. apply Hb. apply elem_of_cons. now right.
Qed.

(** On a recoverable template, [parse_template] returns normally when
    the processing of each of its nodes does. *)
Lemma parse_template_returns_in (I : state -> Prop) (opts : options) (name : string) :
  recoverable W name ->
  (forall msg, preserves I (stdout_write msg)) ->
  (forall t l n, parser_parse W name = Ok t ->
                 walk_nodes W (recursion_limit W) t t = Ok l -> n ∈ l ->
                 forall s, I s -> (process W opts n s).1 = Ok tt
                                  /\ I (process W opts n s).2) ->
  forall s, I s ->
    (parse_template W opts name s).1 = Ok tt /\ I (parse_template W opts name s).2.
Proof.
  unfold recoverable, parse_template. intros Hrec Hout Hstep s Hs.
  assert (forall c msg s, I s -> (when c (stdout_write msg) s).1 = Ok tt
                                 /\ I (when c (stdout_write msg) s).2) as Hsaid.
  { intros c msg s1 Hs1. destruct c; [|now split]. split; [reflexivity|].
    now apply Hout. }
  destruct (parser_parse W name) as [t|e].
  - unfold walk_and_process.
    destruct (walk_nodes W (recursion_limit W) t t) as [nodes|e] eqn:Hw.
    + apply for_each_returns_in; [|exact Hs]. intros n Hn. now apply (Hstep t nodes n).
    + rewrite (Hrec e eq_refl). now apply Hsaid.
  - destruct (exn_cls e); try discriminate; try (now apply Hsaid).
    unfold bind. destruct (Hsaid (show_errors opts)
      ("UnicodeDecodeError while trying to read template " +:+ name +:+ PyStr.nl) s Hs)
      as [Hok Hs1].
    destruct (when _ _ s) as [r s1]. simpl in *. subst r.
    unfold walk_and_process. simpl. now apply Hsaid.
Qed.

(** In delete mode, a file that is not on disk stays so. *)
Lemma delete_file_keeps_absent (n : SassSrcNode) (p : string) :
  preserves (fun s => files s !! p = None) (delete_file W n).
Proof.
  intros s Hs. unfold delete_file. destruct (find_file W (path n)) as [f|]; [|exact Hs].
  destruct (negb (PyStr.truthy f)); [exact Hs|].
  unfold bind, isfile, when. destruct (bool_decide _); [|exact Hs].
  unfold os_remove. destruct (remove_error W (destpath_of f)); [exact Hs|].
  simpl. apply lookup_delete_None. now right.
Qed.

(** [delete_file] that returns normally leaves no artifact of the
    source of the reference. *)
Lemma delete_file_settles (n : SassSrcNode) (s : state) (f : string) :
  (delete_file W n s).1 = Ok tt ->
  find_file W (path n) = Some f -> f <> "" ->
  files (delete_file W n s).2 !! destpath_of f = None.
Proof.
  intros Hok Hf Hne. revert Hok. unfold delete_file. rewrite Hf.
  rewrite (truthy_nonempty _ Hne). simpl. unfold bind, isfile, when.
  destruct (bool_decide (is_Some (files s !! destpath_of f))) eqn:Hin.
  - unfold os_remove. destruct (remove_error W (destpath_of f)); [discriminate|].
    simpl. intros _. apply lookup_delete_eq.
  - intros _. apply bool_decide_eq_false in Hin. simpl. now apply eq_None_not_Some.
Qed.

Lemma delete_run_settles (opts : options) (s0 s1 : state) :
  delete_files opts = true ->
  handle W opts s0 = (Ok tt, s1) ->
  forall n, referenced W n ->
  forall f, find_file W (path n) = Some f -> f <> "" -> files s1 !! destpath_of f = None.
Proof.
  intros Hmode Hrun.
  refine (handle_covers W (fun _ => True)
            (fun n s => forall f, find_file W (path n) = Some f -> f <> "" ->
                                  files s !! destpath_of f = None)
            opts s0 s1 _ _ _ _ _ I Hrun).
  - intros msg s _. exact I.
  - intros m msg s H. exact H.
  - intros m _ s _. exact I.
  - intros m k _ s Hs g Hg Hgne. unfold process. rewrite Hmode.
    apply (delete_file_keeps_absent k (destpath_of g)). now apply Hs.
  - intros m s _ _. unfold process. rewrite Hmode. intros Hok g. now apply delete_file_settles.
Qed.

(** A delete run that follows a delete run that returned normally
    returns normally too; it removes nothing, makes no call, and its
    summary counts no file. *)
Theorem second_delete_run_does_nothing (opts opts' : options) (s0 s1 : state) :
  delete_files opts = true ->
  delete_files opts' = true ->
  handle W opts s0 = (Ok tt, s1) ->
  exists out,
    handle W opts' (initial (files s1))
    = (Ok tt, State (files s1) (out ++ [summary opts' 0]) [] []).
Proof.
  intros Hmode Hmode' Hrun.
  pose proof (delete_run_settles opts s0 s1 Hmode Hrun) as Hsettled.
  destruct (handle_ok_inv opts s0 s1 Hrun) as (templates & s1' & Hft & _ & _).
  pose proof (run_ok_recoverable opts s0 s1 templates Hft Hrun) as Hrec.
  set (I := fun s => files s = files s1 /\ calls s = [] /\ compiled_files s = []).
  assert (forall n, referenced W n ->
            forall s, I s -> (process W opts' n s).1 = Ok tt /\ I (process W opts' n s).2)
    as Hstep.
  { intros n Href s (Hf & Hc & Hd).
    unfold process. rewrite Hmode'. unfold delete_file.
    destruct (find_file W (path n)) as [f|] eqn:Hfind; [|now repeat split].
    destruct (PyStr.truthy f) eqn:Ht; [|now repeat split]. simpl.
    unfold bind, isfile, when.
    rewrite bool_decide_eq_false_2; [now repeat split|].
    rewrite Hf, (Hsettled n Href f Hfind); [now intros [? ?] | now destruct f]. }
  destruct (for_each_returns_in I (elements templates) (parse_template W opts'))
    with (s := State (files s1) [] [] []) as [Hok HI].
  - intros name Hname. apply elem_of_elements in Hname.
    apply parse_template_returns_in; [now apply Hrec | now intros msg s H |].
    intros t l n Hp Hw Hn. apply Hstep. now exists templates, name, t, l.
  - now repeat split.
  - destruct (for_each _ _ _) as [r [fs2 out2 cs2 done2]] eqn:Hloop.
    simpl in Hok. subst r. destruct HI as (Hf & Hc & Hd). simpl in *. subst.
    exists out2. now rewrite (handle_ok_intro opts' (initial (files s1)) _ templates Hft Hloop).
Qed.

(** Deleting after compiling.  When no two sources of the site share
    an artifact, a delete run that returns normally on the files a
    compile run left, which returned normally too, counts the sources
    the compile run counted; afterwards their artifacts are gone and
    every other file is what it was before the compile run. *)
Theorem delete_run_undoes_compile_run (opts_c opts_d : options) (s0 s1 s2 : state) :
  delete_files opts_c = false ->
  delete_files opts_d = true ->
  (forall f g, referenced_source W f -> referenced_source W g ->
               destpath_of f = destpath_of g -> f = g) ->
  handle W opts_c s0 = (Ok tt, s1) ->
  handle W opts_d (initial (files s1)) = (Ok tt, s2) ->
  compiled_files s2 ≡ₚ compiled_files s1
  /\ List.length (compiled_files s2) = List.length (compiled_files s1)
  /\ (forall f, f ∈ compiled_files s1 -> files s2 !! destpath_of f = None)
  /\ (forall p, p ∉ destpath_of <$> compiled_files s1 -> files s2 !! p = files s0 !! p).
Proof.
  intros Hc Hd Hinj Hrun1 Hrun2.
  pose proof (compile_run_sources W opts_c s0 s1 Hc Hrun1) as Hsrc1.
  assert (forall f, referenced_source W f -> is_Some (files s1 !! destpath_of f)) as Hart.
  { intros f Hf. apply Hsrc1 in Hf.
    assert ((fun s => forall f, f ∈ compiled_files s -> is_Some (files s !! destpath_of f))
              (handle W opts_c s0).2) as H.
    { apply handle_establishes.
      - intros msg s H. exact H.
      - intros n. rewrite Hc. apply compile_keeps_artifacts.
      - simpl. intros f' Hf'. inversion Hf'. }
    simpl in H. rewrite Hrun1 in H. now apply H. }
  assert (forall f, referenced_source W f -> f ∈ compiled_files s2) as Hall.
  { intros f (n & Hn & Hf & Hne).
    refine (handle_covers W
              (fun s => forall f, referenced_source W f ->
                                  f ∈ compiled_files s \/ is_Some (files s !! destpath_of f))
              (fun n s => forall f, find_file W (path n) = Some f -> f <> "" ->
                                    f ∈ compiled_files s)
              opts_d (initial (files s1)) s2 _ _ _ _ _ _ Hrun2 n Hn f Hf Hne).
    - intros msg s H. exact H.
    - intros m msg s H. exact H.
    - intros m Hm s Hs. unfold process. rewrite Hd. unfold delete_file.
      destruct (find_file W (path m)) as [g|] eqn:Hg; [|exact Hs].
      destruct (PyStr.truthy g) eqn:Ht; [|exact Hs]. simpl.
      unfold bind, isfile, when. destruct (bool_decide _); [|exact Hs].
      unfold os_remove. destruct (remove_error W (destpath_of g)); [exact Hs|].
      simpl. intros f' Hf'. destruct (Hs f' Hf') as [Hin|Hsome].
      + left. apply elem_of_app. now left.
      + destruct (decide (destpath_of g = destpath_of f')) as [Heq|Hneq].
        * left. apply elem_of_app. right. apply list_elem_of_singleton.
          apply Hinj; [exact Hf' | | now symmetry].
          exists m. split; [exact Hm|]. split; [exact Hg|]. now destruct g.
        * right. now rewrite lookup_delete_ne.
    - intros m k _ s Hs g Hg Hgne. apply (process_grows W opts_d k g). now apply Hs.
    - intros m s Hm Hs. unfold process. rewrite Hd. intros Hok g Hg Hgne.
      assert (referenced_source W g) as Hsrc by now exists m.
      destruct (Hs g Hsrc) as [Hin|Hsome].
      { pose proof (process_grows W opts_d m g s Hin) as H.
        unfold process in H. now rewrite Hd in H. }
      revert Hok. unfold delete_file. rewrite Hg, (truthy_nonempty _ Hgne). simpl.
      unfold bind, isfile, when. rewrite (bool_decide_eq_true_2 _ Hsome).
      unfold os_remove. destruct (remove_error W (destpath_of g)); [discriminate|].
      simpl. intros _. apply elem_of_app. right. now apply list_elem_of_singleton.
    - simpl. intros f' Hf'. right. now apply Hart. }
  assert (forall f, f ∈ compiled_files s2 <-> f ∈ compiled_files s1) as Hsame.
  { intros f. rewrite Hsrc1. split; [|apply Hall].
    intros Hf. apply (handle_records_sources W opts_d (initial (files s1))).
    now rewrite Hrun2. }
  assert (compiled_files s2 ≡ₚ compiled_files s1) as Hperm.
  { apply NoDup_Permutation; [| |exact Hsame].
    - pose proof (handle_distinct W opts_d (initial (files s1))) as H. now rewrite Hrun2 in H.
    - pose proof (handle_distinct W opts_c s0) as H. now rewrite Hrun1 in H. }
  split; [exact Hperm|]. split; [now rewrite Hperm|]. split.
  - intros f Hf. apply Hsame in Hf.
    assert ((fun s => NoDup (compiled_files s)
                      /\ forall f, f ∈ compiled_files s -> files s !! destpath_of f = None)
              (handle W opts_d (initial (files s1))).2) as H.
    { apply handle_establishes.
      - intros msg s H. exact H.
      - intros n. rewrite Hd. apply delete_keeps_distinct.
      - simpl. split; [apply NoDup_nil_2|]. intros f' Hf'. inversion Hf'. }
    simpl in H.
    rewrite Hrun2 in H. now apply (proj2 H).
  - intros p Hp.
    pose proof (handle_frame W opts_d (initial (files s1))) as H2.
    rewrite Hrun2 in H2. simpl in H2.
    pose proof (handle_frame W opts_c s0) as H1.
    rewrite Hrun1 in H1. simpl in H1.
    rewrite H2, H1; [reflexivity | exact Hp |].
    intros Hin. apply Hp. apply list_elem_of_fmap in Hin as (f & -> & Hf).
    apply list_elem_of_fmap. exists f. split; [reflexivity|]. now apply Hsame.
Qed.

End DeleteRuns.
(** ** The further properties on the small site *)

Lemma site_find_templates : find_templates Site.site = Ok Site.templates.
Proof. vm_compute. reflexivity. Qed.

Lemma site_compile_run :
  handle Site.site Site.quiet (initial Site.disk)
  = (Ok tt, (handle Site.site Site.quiet (initial Site.disk)).2).
Proof. vm_compute. reflexivity. Qed.

Lemma site_delete_run :
  handle Site.site Site.delete_quiet (initial Site.disk_compiled)
  = (Ok tt, (handle Site.site Site.delete_quiet (initial Site.disk_compiled)).2).
Proof. vm_compute. reflexivity. Qed.

Lemma site_delete_after_compile_run :
  handle Site.site Site.delete_quiet
    (initial (files (handle Site.site Site.quiet (initial Site.disk)).2))
  = (Ok tt,
     (handle Site.site Site.delete_quiet
        (initial (files (handle Site.site Site.quiet (initial Site.disk)).2))).2).
Proof. vm_compute. reflexivity. Qed.

(** The sources of the small site. *)
Lemma site_sources (f : string) :
  referenced_source Site.site f ->
  f = "/static/styles/main.scss" \/ f = "/static/styles/theme.scss".
Proof.
  intros (n & (ts & name & t & l & Hft & Hname & Hp & Hw & Hn) & Hf & Hne).
  rewrite site_find_templates in Hft. injection Hft as <-.
  unfold Site.templates in Hname. apply elem_of_list_to_set in Hname.
  repeat (apply elem_of_cons in Hname as [->|Hname]); [| | |inversion Hname].
  - vm_compute in Hp. injection Hp as <-. vm_compute in Hw. injection Hw as <-.
    repeat (apply elem_of_cons in Hn as [->|Hn]); [| | |inversion Hn];
      vm_compute in Hf; try discriminate; injection Hf as <-; auto.
  - vm_compute in Hp. discriminate.
  - vm_compute in Hp. injection Hp as <-. vm_compute in Hw. injection Hw as <-.
    repeat (apply elem_of_cons in Hn as [->|Hn]); [|inversion Hn];
      vm_compute in Hf; try discriminate; injection Hf as <-; auto.
Qed.

Lemma process_keeps_source_witness :
  files (process Site.site Site.quiet Site.main (initial Site.disk)).2
    !! "/static/styles/main.scss"
  = Site.disk !! "/static/styles/main.scss".
Proof.
  apply (process_keeps_source Site.site Site.quiet Site.main (initial Site.disk)).
  - reflexivity.
  - intros H. vm_compute in H. discriminate.
Defined.

Lemma handle_touches_artifacts_only_witness :
  files (handle Site.site Site.quiet (initial Site.disk)).2 !! "/static/styles/main.scss"
  = Site.disk !! "/static/styles/main.scss".
Proof.
  apply (handle_touches_artifacts_only Site.site Site.quiet (initial Site.disk)).
  - right. vm_compute. reflexivity.
  - apply (bool_decide_unpack _). vm_compute. exact I.
Defined.

(** A write that fails once the artifact is open: the run ends with
    the error, [main.css], which was no file, is left empty, and
    [main.scss] is not counted. *)
Example failed_write_truncates_artifact :
  (handle Site.site_full_disk Site.quiet (initial Site.disk)).1
  = Raise (Exn IOError "[Errno 28] No space left on device")
  /\ bool_decide ("/static/styles/main.scss"
                  ∈ compiled_files
                      (handle Site.site_full_disk Site.quiet (initial Site.disk)).2) = false
  /\ Site.disk !! "/static/styles/main.css" = None
  /\ files (handle Site.site_full_disk Site.quiet (initial Site.disk)).2
       !! "/static/styles/main.css" = Some "".
Proof. vm_compute. repeat split. Qed.

(** A removal that fails: the run ends with the error having called
    [os.remove] once, and counts no file. *)
Example failed_removal_is_not_counted :
  (handle Site.site_locked Site.delete_quiet (initial Site.disk_compiled)).1
  = Raise (Exn OSError "[Errno 13] Permission denied")
  /\ calls (handle Site.site_locked Site.delete_quiet (initial Site.disk_compiled)).2
     = [CallRemove "/static/styles/main.css"]
  /\ compiled_files (handle Site.site_locked Site.delete_quiet (initial Site.disk_compiled)).2
     = []
  /\ files (handle Site.site_locked Site.delete_quiet (initial Site.disk_compiled)).2
     = Site.disk_compiled.
Proof. vm_compute. repeat split. Qed.

Lemma delete_run_removes_artifacts_witness :
  files (handle Site.site Site.delete_quiet (initial Site.disk_compiled)).2
    !! destpath_of "/static/styles/main.scss" = None.
Proof.
  apply delete_run_removes_artifacts.
  - reflexivity.
  - apply (bool_decide_unpack _). vm_compute. exact I.
Defined.

Lemma compile_run_leaves_artifacts_witness :
  let s' := (handle Site.site Site.quiet (initial Site.disk)).2 in
  let f := "/static/styles/theme.scss" in
  (exists l1 g l2 n content,
     compiled_files s' = (l1 ++ g :: l2)%list
     /\ (forall h, h ∈ l2 -> destpath_of h <> destpath_of f)
     /\ destpath_of g = destpath_of f
     /\ referenced Site.site n /\ find_file Site.site (path n) = Some g
     /\ sass_compile Site.site (include_paths n) g (output_style Site.site) = Ok content
     /\ files s' !! destpath_of f = Some content)
  /\ ((forall g, g ∈ compiled_files s' -> destpath_of g = destpath_of f -> g = f) ->
      exists n content,
        referenced Site.site n /\ find_file Site.site (path n) = Some f
        /\ sass_compile Site.site (include_paths n) f (output_style Site.site) = Ok content
        /\ files s' !! destpath_of f = Some content).
Proof.
  apply (compile_run_leaves_artifacts Site.site Site.quiet (initial Site.disk)).
  - reflexivity.
  - exact site_compile_run.
  - apply (bool_decide_unpack _). vm_compute. exact I.
Defined.

Lemma walk_nodes_raise_origin_witness :
  Exn TemplateDoesNotExist "partials/head.html"
  = Exn RuntimeError "maximum recursion depth exceeded"
  \/ exists t', parser_get_nodelist Site.site_missing_include t' 1%nat
                = Raise (Exn TemplateDoesNotExist "partials/head.html").
Proof.
  apply (walk_nodes_raise_origin Site.site_missing_include 1%nat 100 1%nat).
  reflexivity.
Defined.

Lemma find_templates_returns_witness :
  Site.templates <> ∅
  /\ (forall p, p ∈ Site.templates ->
        exists path root dirs names name,
          offers_path Site.site path
          /\ (root, dirs, names) ∈ os_walk Site.site path
          /\ name ∈ names
          /\ PyStr.startswith name "." = false
          /\ p = OsPath.join root name)
  /\ (forall path root dirs names name,
        offers_path Site.site path ->
        (root, dirs, names) ∈ os_walk Site.site path ->
        name ∈ names ->
        PyStr.startswith name "." = false ->
        PyStr.endswith name ".html" = true ->
        OsPath.join root name ∈ Site.templates).
Proof.
  apply (find_templates_returns Site.site). vm_compute. reflexivity.
Defined.

Lemma handle_aborts_before_templates_witness :
  handle Site.site_unconfigured Site.verbose (initial Site.disk)
  = (Raise (Exn ImproperlyConfigured "You must set TEMPLATE_LOADERS in your settings."),
     initial Site.disk).
Proof.
  apply (handle_aborts_before_templates Site.site_unconfigured Site.verbose
           (initial Site.disk)).
  reflexivity.
Defined.

Lemma show_errors_changes_output_only_witness :
  (handle Site.site Site.quiet (initial Site.disk)).1
  = (handle Site.site Site.verbose (initial Site.disk)).1
  /\ same_but_stdout (handle Site.site Site.quiet (initial Site.disk)).2
                     (handle Site.site Site.verbose (initial Site.disk)).2.
Proof.
  apply show_errors_changes_output_only.
  - reflexivity.
  - repeat split.
Defined.

Lemma counted_sources_are_referenced_witness :
  exists n, referenced Site.site n
            /\ find_file Site.site (path n) = Some "/static/styles/theme.scss"
            /\ "/static/styles/theme.scss" <> "".
Proof.
  apply (counted_sources_are_referenced Site.site Site.quiet (initial Site.disk)).
  apply (bool_decide_unpack _). vm_compute. exact I.
Defined.

Lemma compile_run_counts_every_source_witness :
  NoDup (compiled_files (handle Site.site Site.quiet (initial Site.disk)).2)
  /\ forall f, f ∈ compiled_files (handle Site.site Site.quiet (initial Site.disk)).2 <->
       exists n, referenced Site.site n /\ find_file Site.site (path n) = Some f /\ f <> "".
Proof.
  apply (compile_run_counts_every_source Site.site Site.quiet (initial Site.disk)).
  - reflexivity.
  - exact site_compile_run.
Defined.

Lemma second_delete_run_does_nothing_witness :
  exists out,
    handle Site.site Site.delete_quiet
      (initial (files (handle Site.site Site.delete_quiet (initial Site.disk_compiled)).2))
    = (Ok tt,
       State (files (handle Site.site Site.delete_quiet (initial Site.disk_compiled)).2)
             (out ++ [summary Site.delete_quiet 0]) [] []).
Proof.
  apply (second_delete_run_does_nothing Site.site Site.delete_quiet Site.delete_quiet
           (initial Site.disk_compiled)).
  - reflexivity.
  - reflexivity.
  - exact site_delete_run.
Defined.

Lemma delete_run_undoes_compile_run_witness :
  let s1 := (handle Site.site Site.quiet (initial Site.disk)).2 in
  let s2 := (handle Site.site Site.delete_quiet (initial (files s1))).2 in
  compiled_files s2 ≡ₚ compiled_files s1
  /\ List.length (compiled_files s2) = List.length (compiled_files s1)
  /\ (forall f, f ∈ compiled_files s1 -> files s2 !! destpath_of f = None)
  /\ (forall p, p ∉ destpath_of <$> compiled_files s1 -> files s2 !! p = Site.disk !! p).
Proof.
  apply (delete_run_undoes_compile_run Site.site Site.quiet Site.delete_quiet
           (initial Site.disk)).
  - reflexivity.
  - reflexivity.
  - intros f g Hf Hg. apply site_sources in Hf as [->| ->];
      apply site_sources in Hg as [->| ->]; intros H;
      (reflexivity || (vm_compute in H; discriminate)).
  - exact site_compile_run.
  - exact site_delete_after_compile_run.
Defined.

Lemma parse_failure_skips_template_witness :
  (parse_template Site.site Site.quiet "/t/notes.txt" (initial Site.disk)).1 = Ok tt
  /\ same_but_stdout (initial Site.disk)
       (parse_template Site.site Site.quiet "/t/notes.txt" (initial Site.disk)).2
  /\ (show_errors Site.quiet = false ->
      (parse_template Site.site Site.quiet "/t/notes.txt" (initial Site.disk)).2
      = initial Site.disk).
Proof.
  apply (parse_failure_skips_template Site.site Site.quiet "/t/notes.txt"
           (Exn TemplateSyntaxError "Invalid block tag")).
  - reflexivity.
  - reflexivity.
Defined.
